(** * Project manager: the task board, the dashboard and the task modal

    A shallow embedding of
      - [src/pages/ProjectBoard.tsx]  (board page: columns, task creation, drag and drop),
      - the dashboard page            (project listing and project creation),
      - the task modal                (field edits and assignment toggling),
      - the schema migration          (tables, unique constraints, row-level
                                       security policies, the [updated_at] trigger).

    The pages talk to a hosted Postgres through a client SDK, as a role for
    which row security is in force.  The store is modelled as a record of
    tables (lists of rows, in insertion order); every request of a page is
    one step of a state-passing computation over a [World] made of the
    store, the session, the log of requests sent so far and the
    notifications shown.  What the store cannot decide from its tables
    (generated keys, the clock, a transport or server fault) is read from an
    environment indexed by the number of requests already sent.

    A statement passes the rewriter before it touches a row: the policies of
    every table it names are expanded, and so are the policies of the tables
    their expressions sub-select ([Policy.rewrite]).  The policy that lets
    members read [project_members] sub-selects [project_members], and every
    other policy reaches that table, so the statements of the pages end
    there, with error 42P17.  What a statement would do on the rows is
    modelled all the same, after the rewriter, from the policies'
    expressions, the constraints and the trigger.

    Display-only data (profiles, colours, markup) is left out.  The comments
    table and the requests that the first part does not need are added in
    the module [Full], in which the handlers of the first part run lifted. *)

From Stdlib Require Import ZArith List String Bool Lia Permutation Sorted DecimalString.
Import ListNotations.
Local Open Scope string_scope.
Local Open Scope Z_scope.

(** Strict equality [===] on strings. *)
Notation "a === b" := (String.eqb a b) (at level 70, no associativity).

(** ** Schema *)

Definition uuid := string.

(** [CREATE TYPE public.task_status AS ENUM ('todo','in_progress','review','done')] *)
Inductive task_status := todo | in_progress | review | done.

(** [CREATE TYPE public.project_role AS ENUM ('owner','admin','member')] *)
Inductive project_role := role_owner | role_admin | role_member.

Definition status_label (s : task_status) : string :=
  match s with
  | todo => "todo"
  | in_progress => "in_progress"
  | review => "review"
  | done => "done"
  end.

(** The cast of a text value to the enum, as the store does on a write. *)
Definition parse_status (s : string) : option task_status :=
  if s === "todo" then Some todo
  else if s === "in_progress" then Some in_progress
  else if s === "review" then Some review
  else if s === "done" then Some done
  else None.


Module Project.
Record t := mk {
  id : uuid;
  name : string;
  description : option string;
  owner_id : uuid;
  created_at : Z;
  updated_at : Z }.
End Project.

Module Member.
Record t := mk {
  id : uuid;
  project_id : uuid;
  user_id : uuid;
  role : project_role;
  joined_at : Z }.
End Member.

Module Board.
Record t := mk {
  id : uuid;
  project_id : uuid;
  name : string;
  description : option string;
  position : Z;
  created_at : Z;
  updated_at : Z }.
End Board.

Module Task.
Record t := mk {
  id : uuid;
  board_id : uuid;
  title : string;
  description : option string;
  status : task_status;
  position : Z;
  due_date : option string;
  created_by : uuid;
  created_at : Z;
  updated_at : Z }.
End Task.

Module Assignment.
Record t := mk {
  id : uuid;
  task_id : uuid;
  user_id : uuid;
  assigned_at : Z }.
End Assignment.

Module Db.
Record t := mk {
  projects : list Project.t;
  project_members : list Member.t;
  boards : list Board.t;
  tasks : list Task.t;
  task_assignments : list Assignment.t }.

Definition set_projects (d : t) (l : list Project.t) : t :=
  mk l (project_members d) (boards d) (tasks d) (task_assignments d).
Definition set_project_members (d : t) (l : list Member.t) : t :=
  mk (projects d) l (boards d) (tasks d) (task_assignments d).
Definition set_boards (d : t) (l : list Board.t) : t :=
  mk (projects d) (project_members d) l (tasks d) (task_assignments d).
Definition set_tasks (d : t) (l : list Task.t) : t :=
  mk (projects d) (project_members d) (boards d) l (task_assignments d).
Definition set_task_assignments (d : t) (l : list Assignment.t) : t :=
  mk (projects d) (project_members d) (boards d) (tasks d) l.
End Db.

(** ** Client-side views of rows *)

(** A task as the board page holds it: the row, spread, plus its assignees
    ([{...task, assignees: task.task_assignments || []}]). *)
Record TaskView := mkTaskView {
  row : Task.t;
  assignees : list uuid }.

(** A project as the dashboard holds it ([{...project, member_count}]). *)
Record ProjectView := mkProjectView {
  prow : Project.t;
  member_count : nat }.

(** ** Array helpers *)

(** [Array.prototype.sort(cmp)]: stable; an element goes before the first
    element it does not compare greater than. *)
Fixpoint insert_by {A : Type} (cmp : A -> A -> Z) (x : A) (l : list A) : list A :=
  match l with
  | [] => [x]
  | y :: l' => if cmp x y <=? 0 then x :: l else y :: insert_by cmp x l'
  end.

Definition Array_sort {A : Type} (cmp : A -> A -> Z) (l : list A) : list A :=
  fold_right (insert_by cmp) [] l.

(** [Math.max(...xs, -1)] *)
Definition Math_max_or_minus1 (xs : list Z) : Z := fold_right Z.max (-1) xs.

(** ** The board page: columns *)

Record Column := mkColumn { col_id : string; col_title : string; col_color : string }.

Definition STATUS_COLUMNS : list Column :=
  [ mkColumn "todo" "To Do" "bg-slate-100";
    mkColumn "in_progress" "In Progress" "bg-blue-100";
    mkColumn "review" "Review" "bg-yellow-100";
    mkColumn "done" "Done" "bg-green-100" ].

Definition tv_status (t : TaskView) : task_status := Task.status (row t).
Definition tv_position (t : TaskView) : Z := Task.position (row t).
Definition tv_id (t : TaskView) : uuid := Task.id (row t).

(** [tasks.filter(task => task.status === status).sort((a, b) => a.position - b.position)] *)
Definition getTasksByStatus (tasks : list TaskView) (status : string) : list TaskView :=
  Array_sort (fun a b => tv_position a - tv_position b)
    (filter (fun task => status_label (tv_status task) === status) tasks).

(** The four lanes as rendered: [STATUS_COLUMNS.map(column => getTasksByStatus(column.id))]. *)
Definition columns (tasks : list TaskView) : list (string * list TaskView) :=
  map (fun column => (col_id column, getTasksByStatus tasks (col_id column))) STATUS_COLUMNS.

(** [Math.max(...tasks.filter(t => t.status === newTaskStatus).map(t => t.position), -1)] *)
Definition maxPosition (tasks : list TaskView) (newTaskStatus : string) : Z :=
  Math_max_or_minus1
    (map tv_position (filter (fun t => status_label (tv_status t) === newTaskStatus) tasks)).

(** The position a new task is given, from the tasks already in the target
    status ([position: maxPosition + 1]). *)
Definition computeInsertPosition (existing : list TaskView) : Z :=
  Math_max_or_minus1 (map tv_position existing) + 1.

(** ** Tables and commands *)

Module Rel.
Inductive t :=
| profiles | projects | project_members | boards | tasks | task_assignments | comments.

Definition name (r : t) : string :=
  match r with
  | profiles => "profiles"
  | projects => "projects"
  | project_members => "project_members"
  | boards => "boards"
  | tasks => "tasks"
  | task_assignments => "task_assignments"
  | comments => "comments"
  end.

Definition eqb (a b : t) : bool := name a === name b.
End Rel.

Inductive command := SELECT | INSERT | UPDATE | DELETE.

Definition command_eqb (a b : command) : bool :=
  match a, b with
  | SELECT, SELECT | INSERT, INSERT | UPDATE, UPDATE | DELETE, DELETE => true
  | _, _ => false
  end.

(** The first answer of [f] along [l]. *)
Definition first_some {A B : Type} (f : A -> option B) (l : list A) : option B :=
  fold_right (fun x rest => match f x with Some y => Some y | None => rest end) None l.

(** ** Row-level security policies

    [auth.uid()] is the session's identity, NULL without a session; a
    comparison with NULL is not true.  The definitions that follow are the
    policies' expressions, their sub-selects read on the rows as stored;
    [Policy.rewrite], after them, is what the rewriter does with the
    policies before any expression is evaluated. *)

Definition uid_is (uid : option uuid) (u : uuid) : bool :=
  match uid with
  | Some v => v === u
  | None => false
  end.

Module Policy.

(** [CREATE POLICY "Users can view projects they're members of" ON public.projects
     FOR SELECT USING (
       auth.uid() IN (SELECT user_id FROM public.project_members WHERE project_id = id)
       OR owner_id = auth.uid())]

    [project_members] has an [id] column of its own, and SQL resolves an
    unqualified column in the innermost query that has it: inside the
    sub-select [id] is [project_members.id], not the project's.  (The
    policies on boards and tasks qualify the outer column:
    [boards.project_id], [tasks.board_id].) *)
Definition projects_select (uid : option uuid) (d : Db.t) (p : Project.t) : bool :=
  existsb (fun m => uid_is uid (Member.user_id m)
                    && (Member.project_id m === Member.id m))
          (Db.project_members d)
  || uid_is uid (Project.owner_id p).

(** [... ON public.projects FOR INSERT WITH CHECK (auth.uid() = owner_id)] *)
Definition projects_insert (uid : option uuid) (p : Project.t) : bool :=
  uid_is uid (Project.owner_id p).

(** [CREATE POLICY "Users can view project members for their projects"
     ON public.project_members FOR SELECT USING (
       auth.uid() IN (SELECT user_id FROM public.project_members
                      WHERE project_id = project_members.project_id))]

    Inside the sub-select [project_members] names the sub-select's own
    table, so both sides of the comparison are the same column.  The
    sub-select reads the table the policy guards: for a role under row
    security the expression is never evaluated (see [rewrite] below). *)
Definition members_select (uid : option uuid) (d : Db.t) (m : Member.t) : bool :=
  existsb (fun r => uid_is uid (Member.user_id r)
                    && (Member.project_id r === Member.project_id r))
          (Db.project_members d).

(** [CREATE POLICY "Project owners can manage members" ON public.project_members
     FOR ALL USING (auth.uid() IN (SELECT owner_id FROM public.projects WHERE id = project_id))]
    ([projects] has no [project_id]: it is the member row's.) *)
Definition members_all (uid : option uuid) (d : Db.t) (m : Member.t) : bool :=
  existsb (fun p => uid_is uid (Project.owner_id p)
                    && (Project.id p === Member.project_id m))
          (Db.projects d).

(** [... ON public.boards FOR ALL USING (auth.uid() IN
      (SELECT user_id FROM public.project_members WHERE project_id = boards.project_id))] *)
Definition boards_all (uid : option uuid) (d : Db.t) (b : Board.t) : bool :=
  existsb (fun m => uid_is uid (Member.user_id m)
                    && (Member.project_id m === Board.project_id b))
          (Db.project_members d).

(** [... ON public.tasks FOR SELECT / FOR ALL USING (auth.uid() IN
      (SELECT pm.user_id FROM public.project_members pm
       JOIN public.boards b ON b.project_id = pm.project_id
       WHERE b.id = tasks.board_id))] *)
Definition tasks_all (uid : option uuid) (d : Db.t) (t : Task.t) : bool :=
  existsb (fun pm =>
             uid_is uid (Member.user_id pm)
             && existsb (fun b => (Board.project_id b === Member.project_id pm)
                                  && (Board.id b === Task.board_id t))
                        (Db.boards d))
          (Db.project_members d).

(** [... ON public.task_assignments FOR SELECT / FOR ALL USING (auth.uid() IN
      (SELECT pm.user_id FROM public.project_members pm
       JOIN public.boards b ON b.project_id = pm.project_id
       JOIN public.tasks t ON t.board_id = b.id
       WHERE t.id = task_assignments.task_id))] *)
Definition assignments_all (uid : option uuid) (d : Db.t) (a : Assignment.t) : bool :=
  existsb (fun pm =>
             uid_is uid (Member.user_id pm)
             && existsb (fun b =>
                           (Board.project_id b === Member.project_id pm)
                           && existsb (fun t => (Task.board_id t === Board.id b)
                                                && (Task.id t === Assignment.task_id a))
                                      (Db.tasks d))
                        (Db.boards d))
          (Db.project_members d).

(** *** The policies as the rewriter meets them

    [ALTER TABLE ... ENABLE ROW LEVEL SECURITY] is set on all seven tables.
    To every table a statement names, the rewriter adds the expressions of
    the policies declared for the statement's command (a policy [FOR ALL]
    is one for every command), and for the policies [FOR SELECT] as well
    when the statement reads the table's columns (a filter, a returned
    row).  An expression with a sub-select is rewritten in turn: each table
    it sub-selects gets its policies for SELECT.  A table that comes up
    while its own policies are being expanded ends the statement:
    [ERROR 42P17: infinite recursion detected in policy for relation ...],
    before any row is read or written. *)

Record decl := mk_decl {
  on_table : Rel.t;
  for_command : option command;     (* [None]: [FOR ALL] *)
  sub_selects : list Rel.t }.       (* the tables in the expression's sub-selects *)

(** The [CREATE POLICY] statements of the migration, in its order. *)
Definition declared : list decl :=
  [ (* "Users can view all profiles", "Users can update own profile",
       "Users can insert own profile" *)
    mk_decl Rel.profiles (Some SELECT) [];
    mk_decl Rel.profiles (Some UPDATE) [];
    mk_decl Rel.profiles (Some INSERT) [];
    (* "Users can view projects they're members of", "Users can create projects",
       "Project owners can update projects", "Project owners can delete projects" *)
    mk_decl Rel.projects (Some SELECT) [Rel.project_members];
    mk_decl Rel.projects (Some INSERT) [];
    mk_decl Rel.projects (Some UPDATE) [];
    mk_decl Rel.projects (Some DELETE) [];
    (* "Users can view project members for their projects",
       "Project owners can manage members" *)
    mk_decl Rel.project_members (Some SELECT) [Rel.project_members];
    mk_decl Rel.project_members None [Rel.projects];
    (* "Users can view boards for their projects", "Project members can manage boards" *)
    mk_decl Rel.boards (Some SELECT) [Rel.project_members];
    mk_decl Rel.boards None [Rel.project_members];
    (* "Users can view tasks for their projects", "Project members can manage tasks" *)
    mk_decl Rel.tasks (Some SELECT) [Rel.project_members; Rel.boards];
    mk_decl Rel.tasks None [Rel.project_members; Rel.boards];
    (* "Users can view task assignments for their projects",
       "Project members can manage task assignments" *)
    mk_decl Rel.task_assignments (Some SELECT) [Rel.project_members; Rel.boards; Rel.tasks];
    mk_decl Rel.task_assignments None [Rel.project_members; Rel.boards; Rel.tasks];
    (* "Users can view comments for their projects", "Project members can create comments",
       "Users can update own comments", "Users can delete own comments" *)
    mk_decl Rel.comments (Some SELECT) [Rel.project_members; Rel.boards; Rel.tasks];
    mk_decl Rel.comments (Some INSERT) [Rel.project_members; Rel.boards; Rel.tasks];
    mk_decl Rel.comments (Some UPDATE) [];
    mk_decl Rel.comments (Some DELETE) [] ].

(** The policies that apply to table [r] under one of the commands [cs]. *)
Definition applicable (r : Rel.t) (cs : list command) : list decl :=
  filter (fun p => Rel.eqb (on_table p) r
                   && match for_command p with
                      | None => true
                      | Some c => existsb (command_eqb c) cs
                      end)
         declared.

(** Expanding the policies of [r] while those of the tables in [active]
    are being expanded: the table the recursion is detected on, if any.
    Every step down adds a table to [active] that was not in it, so seven
    steps are the most there can be; [fuel] starts above that. *)
Fixpoint expand (fuel : nat) (active : list Rel.t) (r : Rel.t) (cs : list command)
  : option Rel.t :=
  match fuel with
  | O => None
  | S fuel' =>
      match flat_map sub_selects (applicable r cs) with
      | [] => None
      | subs =>
          if existsb (Rel.eqb r) active then Some r
          else first_some (fun r' => expand fuel' (r :: active) r' [SELECT]) subs
      end
  end.

(** A statement as the rewriter sees it. *)
Record statement := mk_statement {
  target : Rel.t;
  does : command;
  reads_target : bool;      (* [.eq(...)], [.select()]: the target's columns are read *)
  embeds : list Rel.t }.    (* the resources joined into the answer *)

Definition rewrite (s : statement) : option Rel.t :=
  first_some (fun '(r, cs) => expand 8 [] r cs)
    ((target s, does s :: (if reads_target s then [SELECT] else []))
       :: map (fun r => (r, [SELECT])) (embeds s)).

End Policy.

(** ** The world a page runs in *)

(** What the store draws from outside its tables when it serves a request. *)
Record Tick := mkTick {
  fault : option string;   (* the request is lost or refused before it runs *)
  fresh : uuid;            (* gen_random_uuid() *)
  now : Z }.               (* now() *)

(** The field set of an [update] on tasks; [None] leaves the column alone. *)
Record TaskPatch := mkTaskPatch {
  set_title : option string;
  set_description : option (option string);
  set_status : option string;
  set_position : option Z;
  set_due_date : option (option string) }.

Inductive Request :=
| InsertProject (name description : string) (owner_id : uuid)
| InsertMember (project_id user_id : uuid) (role : project_role)
| InsertBoard (project_id : uuid) (name description : string)
| InsertTask (board_id : uuid) (title description status : string) (position : Z)
             (created_by : uuid)
| UpdateTask (id : uuid) (patch : TaskPatch)
| InsertAssignment (task_id user_id : uuid)
| DeleteAssignment (task_id user_id : uuid)
| SelectProjects
| SelectTasks (board_id : uuid).

Definition is_write (r : Request) : bool :=
  match r with
  | SelectProjects | SelectTasks _ => false
  | _ => true
  end.

Record Toast := mkToast {
  toast_title : string;
  toast_description : string;
  destructive : bool }.

Record World := mkWorld {
  db : Db.t;
  session : option uuid;
  env : nat -> Tick;
  log : list Request;
  toasts : list Toast }.

Definition set_db (w : World) (d : Db.t) : World :=
  mkWorld d (session w) (env w) (log w) (toasts w).

Definition sent (w : World) (r : Request) : World :=
  mkWorld (db w) (session w) (env w) (log w ++ [r]) (toasts w).

(** [toast({title, description, variant})] *)
Definition toast (t : Toast) (w : World) : World :=
  mkWorld (db w) (session w) (env w) (log w) (toasts w ++ [t]).

Definition toast_error (msg : string) : World -> World :=
  toast (mkToast "Error" msg true).

Definition toast_success (msg : string) : World -> World :=
  toast (mkToast "Success" msg false).

(** [{data, error}]: an error message or the data. *)
Definition Response (A : Type) : Type := (string + A)%type.

(** One round trip: the request is logged, then either the environment's
    fault comes back, or the store runs it on its tables. *)
Definition request {A : Type} (r : Request)
    (exec : Tick -> option uuid -> Db.t -> Response (A * Db.t))
    (w : World) : Response A * World :=
  let t := env w (List.length (log w)) in
  let w1 := sent w r in
  match fault t with
  | Some msg => (inl msg, w1)
  | None =>
      match exec t (session w) (db w) with
      | inl e => (inl e, w1)
      | inr (a, d') => (inr a, set_db w1 d')
      end
  end.

(** ** The store's side of each request *)

Module Store.

(** A name between double quotes, as the store's messages show it. *)
Definition quoted (s : string) : string :=
  String (Ascii.ascii_of_nat 34) (String.append s (String (Ascii.ascii_of_nat 34) EmptyString)).

Definition infinite_recursion (r : Rel.t) : string :=
  String.append "infinite recursion detected in policy for relation " (quoted (Rel.name r)).

Definition rls_violation (table : string) : string :=
  String.append "new row violates row-level security policy for table " (quoted table).

Definition unique_violation (constraint : string) : string :=
  String.append "duplicate key value violates unique constraint " (quoted constraint).

Definition invalid_enum (value : string) : string :=
  String.append "invalid input value for enum task_status: " (quoted value).

Definition out_of_range (z : Z) : string :=
  String.append "value "
    (String.append (quoted (NilZero.string_of_int (Z.to_int z)))
                   " is out of range for type integer").

(** A statement runs once the rewriter has let it through.  What it does
    then is given below from the policies' expressions, the keys and the
    trigger; the foreign keys of the user columns (to the users of the auth
    schema and to profiles) are left out, the model having no table of
    users, and rows that a sort leaves tied are taken in table order. *)
Definition rewritten {A : Type} (s : Policy.statement) (run : Response A) : Response A :=
  match Policy.rewrite s with
  | Some r => inl (infinite_recursion r)
  | None => run
  end.

(** The range of a column of type [INTEGER]. *)
Definition int4 (z : Z) : bool := (-2147483648 <=? z) && (z <=? 2147483647).

(** [insert([{name, description, owner_id}]).select().single()] on projects. *)
Definition insert_project (name description : string) (owner_id : uuid)
    (t : Tick) (uid : option uuid) (d : Db.t) : Response (Project.t * Db.t) :=
  rewritten (Policy.mk_statement Rel.projects INSERT true [])
    (let new := Project.mk (fresh t) name (Some description) owner_id (now t) (now t) in
     if negb (Policy.projects_insert uid new) then inl (rls_violation "projects")
     else if existsb (fun p => Project.id p === Project.id new) (Db.projects d)
     then inl (unique_violation "projects_pkey")
     else inr (new, Db.set_projects d (Db.projects d ++ [new]))).

(** [insert([{project_id, user_id, role}])] on project_members;
    [UNIQUE(project_id, user_id)]. *)
Definition insert_member (project_id user_id : uuid) (role : project_role)
    (t : Tick) (uid : option uuid) (d : Db.t) : Response (unit * Db.t) :=
  rewritten (Policy.mk_statement Rel.project_members INSERT false [])
    (let new := Member.mk (fresh t) project_id user_id role (now t) in
     if negb (Policy.members_all uid d new) then inl (rls_violation "project_members")
     else if existsb (fun m => Member.id m === Member.id new) (Db.project_members d)
     then inl (unique_violation "project_members_pkey")
     else if existsb (fun m => (Member.project_id m === project_id)
                               && (Member.user_id m === user_id))
                     (Db.project_members d)
     then inl (unique_violation "project_members_project_id_user_id_key")
     else inr (tt, Db.set_project_members d (Db.project_members d ++ [new]))).

(** [insert([{project_id, name, description}])] on boards; [position] defaults to 0. *)
Definition insert_board (project_id : uuid) (name description : string)
    (t : Tick) (uid : option uuid) (d : Db.t) : Response (unit * Db.t) :=
  rewritten (Policy.mk_statement Rel.boards INSERT false [])
    (let new := Board.mk (fresh t) project_id name (Some description) 0 (now t) (now t) in
     if negb (Policy.boards_all uid d new) then inl (rls_violation "boards")
     else if existsb (fun b => Board.id b === Board.id new) (Db.boards d)
     then inl (unique_violation "boards_pkey")
     else inr (tt, Db.set_boards d (Db.boards d ++ [new]))).

(** [insert([{board_id, title, description, status, position, created_by}])] on tasks. *)
Definition insert_task (board_id : uuid) (title description status : string)
    (position : Z) (created_by : uuid)
    (t : Tick) (uid : option uuid) (d : Db.t) : Response (unit * Db.t) :=
  rewritten (Policy.mk_statement Rel.tasks INSERT false [])
    match parse_status status with
    | None => inl (invalid_enum status)
    | Some st =>
        if negb (int4 position) then inl (out_of_range position)
        else
          let new := Task.mk (fresh t) board_id title (Some description) st position
                             None created_by (now t) (now t) in
          if negb (Policy.tasks_all uid d new) then inl (rls_violation "tasks")
          else if existsb (fun x => Task.id x === Task.id new) (Db.tasks d)
          then inl (unique_violation "tasks_pkey")
          else inr (tt, Db.set_tasks d (Db.tasks d ++ [new]))
    end.

(** The columns of a patch written over a row; the trigger
    [update_tasks_updated_at] ([BEFORE UPDATE ... NEW.updated_at = now()])
    stamps the row. *)
Definition apply_patch (p : TaskPatch) (st : option task_status) (stamp : Z)
    (r : Task.t) : Task.t :=
  Task.mk (Task.id r) (Task.board_id r)
    (match set_title p with Some v => v | None => Task.title r end)
    (match set_description p with Some v => v | None => Task.description r end)
    (match st with Some v => v | None => Task.status r end)
    (match set_position p with Some v => v | None => Task.position r end)
    (match set_due_date p with Some v => v | None => Task.due_date r end)
    (Task.created_by r) (Task.created_at r) stamp.

(** [update(patch).eq('id', id)] on tasks: the rows with that id that the
    policy lets the caller touch (the others are skipped without an error).
    The patch never carries [board_id], so the written row passes the
    policy's check as the old one did. *)
Definition update_task (id : uuid) (p : TaskPatch)
    (t : Tick) (uid : option uuid) (d : Db.t) : Response (unit * Db.t) :=
  let go (st : option task_status) : Response (unit * Db.t) :=
    if negb (match set_position p with Some z => int4 z | None => true end)
    then inl (out_of_range (match set_position p with Some z => z | None => 0 end))
    else inr (tt, Db.set_tasks d
                    (map (fun r => if (Task.id r === id) && Policy.tasks_all uid d r
                                   then apply_patch p st (now t) r else r)
                         (Db.tasks d))) in
  rewritten (Policy.mk_statement Rel.tasks UPDATE true [])
    match set_status p with
    | None => go None
    | Some s =>
        match parse_status s with
        | None => inl (invalid_enum s)
        | Some st => go (Some st)
        end
    end.

(** [insert([{task_id, user_id}])] on task_assignments; [UNIQUE(task_id, user_id)]. *)
Definition insert_assignment (task_id user_id : uuid)
    (t : Tick) (uid : option uuid) (d : Db.t) : Response (unit * Db.t) :=
  rewritten (Policy.mk_statement Rel.task_assignments INSERT false [])
    (let new := Assignment.mk (fresh t) task_id user_id (now t) in
     if negb (Policy.assignments_all uid d new) then inl (rls_violation "task_assignments")
     else if existsb (fun a => Assignment.id a === Assignment.id new) (Db.task_assignments d)
     then inl (unique_violation "task_assignments_pkey")
     else if existsb (fun a => (Assignment.task_id a === task_id)
                               && (Assignment.user_id a === user_id))
                     (Db.task_assignments d)
     then inl (unique_violation "task_assignments_task_id_user_id_key")
     else inr (tt, Db.set_task_assignments d (Db.task_assignments d ++ [new]))).

(** [delete().eq('task_id', task_id).eq('user_id', user_id)] on task_assignments. *)
Definition delete_assignment (task_id user_id : uuid)
    (t : Tick) (uid : option uuid) (d : Db.t) : Response (unit * Db.t) :=
  rewritten (Policy.mk_statement Rel.task_assignments DELETE true [])
    (inr (tt, Db.set_task_assignments d
                (filter (fun a => negb ((Assignment.task_id a === task_id)
                                        && (Assignment.user_id a === user_id)
                                        && Policy.assignments_all uid d a))
                        (Db.task_assignments d)))).

(** [select('*, task_assignments!left(user_id, profiles!...(display_name)),
     comments!left(id)').eq('board_id', boardId).order('position')] on tasks. *)
Definition select_tasks (boardId : uuid)
    (t : Tick) (uid : option uuid) (d : Db.t) : Response (list TaskView * Db.t) :=
  let visible :=
    filter (fun r => Policy.tasks_all uid d r && (Task.board_id r === boardId))
           (Db.tasks d) in
  let ordered := Array_sort (fun a b => Task.position a - Task.position b) visible in
  rewritten (Policy.mk_statement Rel.tasks SELECT true
               [Rel.task_assignments; Rel.profiles; Rel.comments])
    (inr (map (fun r =>
                 mkTaskView r
                   (map Assignment.user_id
                        (filter (fun a => (Assignment.task_id a === Task.id r)
                                          && Policy.assignments_all uid d a)
                                (Db.task_assignments d))))
              ordered, d)).

(** The member rows of a project that the caller may read (either policy
    on project_members admits the row). *)
Definition members_of (uid : option uuid) (d : Db.t) (p : Project.t) : list Member.t :=
  filter (fun m => (Member.project_id m === Project.id p)
                   && (Policy.members_select uid d m || Policy.members_all uid d m))
         (Db.project_members d).

(** [select('*, project_members!inner(id)').order('created_at', {ascending: false})]
    on projects: the inner join drops a project without a readable member row. *)
Definition select_projects
    (t : Tick) (uid : option uuid) (d : Db.t) : Response (list ProjectView * Db.t) :=
  let visible :=
    filter (fun p => Policy.projects_select uid d p
                     && negb (Nat.eqb (List.length (members_of uid d p)) 0))
           (Db.projects d) in
  let ordered := Array_sort (fun a b => Project.created_at b - Project.created_at a) visible in
  rewritten (Policy.mk_statement Rel.projects SELECT true [Rel.project_members])
    (inr (map (fun p => mkProjectView p (List.length (members_of uid d p))) ordered, d)).

End Store.

(** The message of the [TypeError] that [user!.id] raises without a user. *)
Definition null_user : string := "Cannot read properties of null (reading 'id')".

(** ** The board page *)

Module ProjectBoard.

Record DraggableLocation := mkLocation { droppableId : string; index : Z }.

Record DropResult := mkDropResult {
  draggableId : string;
  source : DraggableLocation;
  destination : option DraggableLocation }.

Record State := mk {
  board : option Board.t;
  tasks : list TaskView;
  newTaskStatus : string;
  newTask_title : string;
  newTask_description : string;
  isCreateTaskOpen : bool }.

Definition setTasks (st : State) (l : list TaskView) : State :=
  mk (board st) l (newTaskStatus st) (newTask_title st) (newTask_description st)
     (isCreateTaskOpen st).

(** [setNewTask({title: '', description: ''}); setIsCreateTaskOpen(false)] *)
Definition closeCreateTask (st : State) : State :=
  mk (board st) (tasks st) (newTaskStatus st) "" "" false.

(** [setNewTaskStatus(status); setIsCreateTaskOpen(true)] *)
Definition openCreateTaskDialog (status : string) (st : State) : State :=
  mk (board st) (tasks st) status (newTask_title st) (newTask_description st) true.

Definition fetchTasks (boardId : uuid) (st : State) (w : World) : State * World :=
  match request (SelectTasks boardId) (Store.select_tasks boardId) w with
  | (inr data, w1) => (setTasks st data, w1)
  | (inl _, w1) => (st, toast_error "Failed to fetch tasks" w1)
  end.

Definition handleCreateTask (st : State) (w : World) : State * World :=
  match board st with
  | None => (st, w)
  | Some b =>
      let maxPosition := maxPosition (tasks st) (newTaskStatus st) in
      match session w with
      | None => (st, toast_error null_user w)
      | Some user_id =>
          match request
                  (InsertTask (Board.id b) (newTask_title st) (newTask_description st)
                              (newTaskStatus st) (maxPosition + 1) user_id)
                  (Store.insert_task (Board.id b) (newTask_title st)
                                     (newTask_description st) (newTaskStatus st)
                                     (maxPosition + 1) user_id)
                  w with
          | (inl message, w1) => (st, toast_error message w1)
          | (inr _, w1) =>
              fetchTasks (Board.id b) (closeCreateTask st)
                         (toast_success "Task created successfully!" w1)
          end
      end
  end.

(** [{status: newStatus, position: destination.index}] *)
Definition move_patch (dest : DraggableLocation) : TaskPatch :=
  mkTaskPatch None None (Some (droppableId dest)) (Some (index dest)) None.

Definition handleDragEnd (result : DropResult) (st : State) (w : World) : State * World :=
  match destination result, board st with
  | Some dest, Some b =>
      if (droppableId (source result) === droppableId dest)
         && (index (source result) =? index dest)
      then (st, w)
      else
        match request (UpdateTask (draggableId result) (move_patch dest))
                      (Store.update_task (draggableId result) (move_patch dest)) w with
        | (inl _, w1) => (st, toast_error "Failed to update task" w1)
        | (inr _, w1) => fetchTasks (Board.id b) st w1
        end
  | _, _ => (st, w)
  end.

End ProjectBoard.

(** ** The dashboard *)

Module Dashboard.

Record State := mk {
  projects : list ProjectView;
  loading : bool;
  isCreateDialogOpen : bool;
  newProject_name : string;
  newProject_description : string }.

Definition fetchProjects (st : State) (w : World) : State * World :=
  match request SelectProjects Store.select_projects w with
  | (inr data, w1) =>
      (mk data false (isCreateDialogOpen st) (newProject_name st)
          (newProject_description st), w1)
  | (inl _, w1) =>
      (mk (projects st) false (isCreateDialogOpen st) (newProject_name st)
          (newProject_description st),
       toast_error "Failed to fetch projects" w1)
  end.

(** [setNewProject({name: '', description: ''}); setIsCreateDialogOpen(false)] *)
Definition closeCreateDialog (st : State) : State :=
  mk (projects st) (loading st) false "" "".

Definition handleCreateProject (st : State) (w : World) : State * World :=
  match session w with
  | None => (st, toast_error null_user w)
  | Some user_id =>
      match request (InsertProject (newProject_name st) (newProject_description st) user_id)
                    (Store.insert_project (newProject_name st)
                                          (newProject_description st) user_id) w with
      | (inl message, w1) => (st, toast_error message w1)
      | (inr project, w1) =>
          (* Add the creator as a project member *)
          match request (InsertMember (Project.id project) user_id role_owner)
                        (Store.insert_member (Project.id project) user_id role_owner)
                        w1 with
          | (inl message, w2) => (st, toast_error message w2)
          | (inr _, w2) =>
              (* Create a default board *)
              match request
                      (InsertBoard (Project.id project) "Main Board" "Default project board")
                      (Store.insert_board (Project.id project) "Main Board"
                                          "Default project board") w2 with
              | (inl message, w3) => (st, toast_error message w3)
              | (inr _, w3) =>
                  fetchProjects (closeCreateDialog st)
                                (toast_success "Project created successfully!" w3)
              end
          end
      end
  end.

End Dashboard.

(** ** The task modal

    The modal is opened on a task of the board page ([task], a prop that the
    page does not refresh while the modal is open) and reports back through
    [onTaskUpdate], the page's [() => board && fetchTasks(board.id)].  That
    call is not awaited: its request leaves at once, its answer is handled
    after the handler's own notification. *)

Module TaskModal.

Record State := mk {
  editedTask : TaskView;
  isLoading : bool }.

Definition setIsLoading (b : bool) (st : State) : State := mk (editedTask st) b.

Definition onTaskUpdate (page : ProjectBoard.State) (w : World)
  : ProjectBoard.State * World :=
  match ProjectBoard.board page with
  | Some b => ProjectBoard.fetchTasks (Board.id b) page w
  | None => (page, w)
  end.

(** [{title, description, status, due_date}] of the edited task *)
Definition save_patch (edited : TaskView) : TaskPatch :=
  mkTaskPatch (Some (Task.title (row edited)))
              (Some (Task.description (row edited)))
              (Some (status_label (Task.status (row edited))))
              None
              (Some (Task.due_date (row edited))).

Definition handleSaveTask (task : TaskView) (st : State) (page : ProjectBoard.State)
    (w : World) : State * ProjectBoard.State * World :=
  match request (UpdateTask (tv_id task) (save_patch (editedTask st)))
                (Store.update_task (tv_id task) (save_patch (editedTask st))) w with
  | (inl message, w1) => (setIsLoading false st, page, toast_error message w1)
  | (inr _, w1) =>
      let (page', w2) := onTaskUpdate page (toast_success "Task updated successfully!" w1) in
      (setIsLoading false st, page', w2)
  end.

Definition handleAssignUser (task : TaskView) (userId : uuid)
    (page : ProjectBoard.State) (w : World) : ProjectBoard.State * World :=
  (* Check if user is already assigned *)
  let isAssigned := existsb (fun a => a === userId) (assignees task) in
  let answer :=
    if isAssigned
    then request (DeleteAssignment (tv_id task) userId)
                 (Store.delete_assignment (tv_id task) userId) w
    else request (InsertAssignment (tv_id task) userId)
                 (Store.insert_assignment (tv_id task) userId) w in
  match answer with
  | (inl message, w1) => (page, toast_error message w1)
  | (inr _, w1) =>
      onTaskUpdate page
        (toast_success (if isAssigned then "User unassigned" else "User assigned to task") w1)
  end.

End TaskModal.

(** ** Specification vocabulary *)

(** [m] is the greatest element of [l]. *)
Definition is_maximum (m : Z) (l : list Z) : Prop :=
  In m l /\ Forall (fun x => x <= m) l.

(** What a request is answered when it does not come back with data: the
    fault's message, or the rewriter's error for some table. *)
Definition refusal (t : Tick) (message : string) : Prop :=
  match fault t with
  | Some e => message = e
  | None => exists r, message = Store.infinite_recursion r
  end.

(** ** Sample data *)

Definition sample_task (id : uuid) (s : task_status) (p : Z) : Task.t :=
  Task.mk id "b1" "Write report" None s p None "u1" 100 100.

Definition sample_view (id : uuid) (s : task_status) (p : Z) : TaskView :=
  mkTaskView (sample_task id s p) [].





(** A task row after a move to status [s], position [i], stamped [stamp]. *)
Definition moved (s : task_status) (i : Z) (stamp : Z) (r : Task.t) : Task.t :=
  Task.mk (Task.id r) (Task.board_id r) (Task.title r) (Task.description r)
          s i (Task.due_date r) (Task.created_by r) (Task.created_at r) stamp.

Definition sample_db : Db.t :=
  Db.mk [Project.mk "p1" "Acme" None "u1" 10 10]
        [Member.mk "m1" "p1" "u1" role_owner 10]
        [Board.mk "b1" "p1" "Main Board" (Some "Default project board") 0 10 10]
        [sample_task "t1" todo 0; sample_task "t2" todo 1]
        [].

(** An environment without faults. *)
Definition quiet_env (n : nat) : Tick :=
  mkTick None
         (match n with O => "n0" | 1%nat => "n1" | 2%nat => "n2" | _ => "n3" end)
         (200 + Z.of_nat n).

(** An environment that fails every request. *)
Definition down_env (n : nat) : Tick := mkTick (Some "Failed to fetch") "n0" 200.

Definition sample_world : World := mkWorld sample_db (Some "u1") quiet_env [] [].

Definition sample_board : Board.t :=
  Board.mk "b1" "p1" "Main Board" (Some "Default project board") 0 10 10.

Definition sample_page : ProjectBoard.State :=
  ProjectBoard.mk (Some sample_board)
                  [sample_view "t1" todo 0; sample_view "t2" todo 1]
                  "todo" "Call client" "" true.

(** Dropping task t1 back where it was picked up. *)
Definition sample_identity_move : ProjectBoard.DropResult :=
  ProjectBoard.mkDropResult "t1" (ProjectBoard.mkLocation "todo" 0)
                            (Some (ProjectBoard.mkLocation "todo" 0)).

(** Dragging task t1 to the top of the empty review column. *)
Definition sample_move_across : ProjectBoard.DropResult :=
  ProjectBoard.mkDropResult "t1" (ProjectBoard.mkLocation "todo" 0)
                            (Some (ProjectBoard.mkLocation "review" 0)).



Definition gapped_page : ProjectBoard.State :=
  ProjectBoard.mk (Some sample_board)
                  [sample_view "t1" todo 0; sample_view "t2" todo 2]
                  "todo" "" "" false.

(** The sample project, owned by u1. *)
Definition orphan_project : Project.t := Project.mk "p1" "Acme" None "u1" 10 10.

Definition fresh_dashboard : Dashboard.State := Dashboard.mk [] true false "" "".

(** A project of u1 that u2 has joined as a member. *)
Definition shared_db : Db.t :=
  Db.mk [orphan_project]
        [Member.mk "m1" "p1" "u1" role_owner 10; Member.mk "m2" "p1" "u2" role_member 20]
        [] [] [].

(** The dashboard of u2 on that store, and of the owner u1. *)
Definition member_world : World := mkWorld shared_db (Some "u2") quiet_env [] [].

Definition owner_world : World := mkWorld shared_db (Some "u1") quiet_env [] [].




(** The dashboard with the creation dialog filled in. *)
Definition acme_dialog : Dashboard.State :=
  Dashboard.mk [] false true "Acme" "Rocket skates".

Definition empty_db : Db.t := Db.mk [] [] [] [] [].

Definition empty_world : World := mkWorld empty_db (Some "u1") quiet_env [] [].



Definition assigns (task_id user_id : uuid) (a : Assignment.t) : bool :=
  (Assignment.task_id a === task_id) && (Assignment.user_id a === user_id).

(** The sample store with u1 assigned to t1. *)
Definition assigned_db : Db.t :=
  Db.set_task_assignments sample_db [Assignment.mk "a1" "t1" "u1" 150].

Definition assigned_world : World := mkWorld assigned_db (Some "u1") quiet_env [] [].

(** The sample store behind a backend that is down. *)
Definition down_world : World := mkWorld sample_db (Some "u1") down_env [] [].

(** A dashboard that has loaded one project before. *)
Definition loaded_dashboard : Dashboard.State :=
  Dashboard.mk [mkProjectView orphan_project 1] false false "" "".


(** ** Store constraints *)




(** The modal's list under "Add assignee":
    [projectMembers.filter(member => !task.assignees?.some(a => a.user_id === member.user_id))] *)
Definition addable_members (projectMembers : list uuid) (task : TaskView) : list uuid :=
  filter (fun member => negb (existsb (fun a => a === member) (assignees task)))
         projectMembers.




(** ** The rest of the store and of the pages

    The comments table, the requests of the pages that the sections above
    do not need (loading a project, reading comments and members, adding a
    comment, deleting a task), and the handlers that send them.  A world
    with these is a [Full.W]; the handlers above run in it through
    [Full.lift]. *)

Module Comment.
Record t := mk {
  id : uuid;
  task_id : uuid;
  user_id : uuid;
  content : string;
  created_at : Z;
  updated_at : Z }.
End Comment.

(** A comment as the modal holds it ([select('id, content, created_at, user_id, ...')]). *)
Record CommentView := mkCommentView {
  cv_id : uuid;
  cv_content : string;
  cv_created_at : Z;
  cv_user_id : uuid }.

Module Full.

Module Tables.
Record t := mk {
  core : Db.t;
  comments : list Comment.t }.
End Tables.

(** [... ON public.comments FOR SELECT USING (auth.uid() IN
      (SELECT pm.user_id FROM public.project_members pm
       JOIN public.boards b ON b.project_id = pm.project_id
       JOIN public.tasks t ON t.board_id = b.id
       WHERE t.id = comments.task_id))] *)
Definition comments_select (uid : option uuid) (d : Tables.t) (c : Comment.t) : bool :=
  existsb (fun pm =>
             uid_is uid (Member.user_id pm)
             && existsb (fun b =>
                           (Board.project_id b === Member.project_id pm)
                           && existsb (fun t => (Task.board_id t === Board.id b)
                                                && (Task.id t === Comment.task_id c))
                                      (Db.tasks (Tables.core d)))
                        (Db.boards (Tables.core d)))
          (Db.project_members (Tables.core d)).

(** [... ON public.comments FOR INSERT WITH CHECK (auth.uid() IN (...the same
      sub-select...) AND auth.uid() = user_id)] *)
Definition comments_insert (uid : option uuid) (d : Tables.t) (c : Comment.t) : bool :=
  comments_select uid d c && uid_is uid (Comment.user_id c).

Inductive Call :=
| Core (r : Request)
| SelectProject (id : uuid)
| SelectFirstBoard (project_id : uuid)
| SelectComments (task_id : uuid)
| SelectMembers (project_id : uuid)
| InsertComment (task_id user_id : uuid) (content : string)
| DeleteTask (id : uuid).

Record W := mkW {
  tables : Tables.t;
  caller : option uuid;
  clock : nat -> Tick;
  calls : list Call;
  notices : list Toast }.

Definition notice (t : Toast) (w : W) : W :=
  mkW (tables w) (caller w) (clock w) (calls w) (notices w ++ [t]).

Definition notice_error (msg : string) : W -> W := notice (mkToast "Error" msg true).

Definition notice_success (msg : string) : W -> W := notice (mkToast "Success" msg false).

(** One round trip, as [request] above. *)
Definition call {A : Type} (c : Call)
    (exec : Tick -> option uuid -> Tables.t -> Response (A * Tables.t))
    (w : W) : Response A * W :=
  let t := clock w (List.length (calls w)) in
  match fault t with
  | Some msg => (inl msg, mkW (tables w) (caller w) (clock w) (calls w ++ [c]) (notices w))
  | None =>
      match exec t (caller w) (tables w) with
      | inl e => (inl e, mkW (tables w) (caller w) (clock w) (calls w ++ [c]) (notices w))
      | inr (a, d') => (inr a, mkW d' (caller w) (clock w) (calls w ++ [c]) (notices w))
      end
  end.

(** A handler of the sections above, run in the full world: it sees the
    core tables, continues the environment where the calls so far have
    left it, and its requests and notifications are appended. *)
Definition lift {A : Type} (h : World -> A * World) (w : W) : A * W :=
  let (a, w') :=
    h (mkWorld (Tables.core (tables w)) (caller w)
               (fun n => clock w (List.length (calls w) + n)) [] (notices w)) in
  (a, mkW (Tables.mk (db w') (Tables.comments (tables w))) (caller w) (clock w)
          (calls w ++ map Core (log w')) (toasts w')).

(** [.single()]: exactly one row, or an error. *)
Definition single {A : Type} (rows : list A) : Response A :=
  match rows with
  | [x] => inr x
  | _ => inl "JSON object requested, multiple (or no) rows returned"
  end.

(** [from('projects').select('*').eq('id', projectId).single()] *)
Definition select_project (projectId : uuid)
    (t : Tick) (uid : option uuid) (d : Tables.t) : Response (Project.t * Tables.t) :=
  Store.rewritten (Policy.mk_statement Rel.projects SELECT true [])
    match single (filter (fun p => Policy.projects_select uid (Tables.core d) p
                                   && (Project.id p === projectId))
                         (Db.projects (Tables.core d))) with
    | inl e => inl e
    | inr p => inr (p, d)
    end.

(** [from('boards').select('*').eq('project_id', projectId).order('position')
     .limit(1).single()]; boards of equal position come in table order. *)
Definition select_first_board (projectId : uuid)
    (t : Tick) (uid : option uuid) (d : Tables.t) : Response (Board.t * Tables.t) :=
  Store.rewritten (Policy.mk_statement Rel.boards SELECT true [])
    match single
            (firstn 1
               (Array_sort (fun a b => Board.position a - Board.position b)
                  (filter (fun b => Policy.boards_all uid (Tables.core d) b
                                    && (Board.project_id b === projectId))
                          (Db.boards (Tables.core d))))) with
    | inl e => inl e
    | inr b => inr (b, d)
    end.

(** [from('comments').select('id, content, created_at, user_id, ...')
     .eq('task_id', task.id).order('created_at', {ascending: true})] *)
Definition select_comments (task_id : uuid)
    (t : Tick) (uid : option uuid) (d : Tables.t)
  : Response (list CommentView * Tables.t) :=
  Store.rewritten (Policy.mk_statement Rel.comments SELECT true [Rel.profiles])
    (inr (map (fun c => mkCommentView (Comment.id c) (Comment.content c)
                                      (Comment.created_at c) (Comment.user_id c))
              (Array_sort (fun a b => Comment.created_at a - Comment.created_at b)
                 (filter (fun c => comments_select uid d c && (Comment.task_id c === task_id))
                         (Tables.comments d))),
          d)).

(** [from('project_members').select('user_id, ...').eq('project_id', projectId)] *)
Definition select_members (projectId : uuid)
    (t : Tick) (uid : option uuid) (d : Tables.t) : Response (list uuid * Tables.t) :=
  Store.rewritten (Policy.mk_statement Rel.project_members SELECT true [Rel.profiles])
    (inr (map Member.user_id
              (filter (fun m => (Policy.members_select uid (Tables.core d) m
                                 || Policy.members_all uid (Tables.core d) m)
                                && (Member.project_id m === projectId))
                      (Db.project_members (Tables.core d))),
          d)).

(** [from('comments').insert([{task_id, user_id, content}])] *)
Definition insert_comment (task_id user_id : uuid) (content : string)
    (t : Tick) (uid : option uuid) (d : Tables.t) : Response (unit * Tables.t) :=
  Store.rewritten (Policy.mk_statement Rel.comments INSERT false [])
    (let new := Comment.mk (fresh t) task_id user_id content (now t) (now t) in
     if negb (comments_insert uid d new) then inl (Store.rls_violation "comments")
     else if existsb (fun c => Comment.id c === Comment.id new) (Tables.comments d)
     then inl (Store.unique_violation "comments_pkey")
     else inr (tt, Tables.mk (Tables.core d) (Tables.comments d ++ [new]))).

(** The task rows that [delete().eq('id', id)] removes: those the policy
    on tasks lets the caller touch. *)
Definition deleted_tasks (id : uuid) (uid : option uuid) (d : Tables.t) : list Task.t :=
  filter (fun r => (Task.id r === id) && Policy.tasks_all uid (Tables.core d) r)
         (Db.tasks (Tables.core d)).

(** [from('tasks').delete().eq('id', task.id)]; the assignments and the
    comments of a removed task go with it
    ([task_id ... REFERENCES public.tasks(id) ON DELETE CASCADE]). *)
Definition delete_task (id : uuid)
    (t : Tick) (uid : option uuid) (d : Tables.t) : Response (unit * Tables.t) :=
  let gone := deleted_tasks id uid d in
  let refers (task_id : uuid) := existsb (fun r => Task.id r === task_id) gone in
  Store.rewritten (Policy.mk_statement Rel.tasks DELETE true [])
    (inr (tt,
          Tables.mk
            (Db.set_task_assignments
               (Db.set_tasks (Tables.core d)
                  (filter (fun r => negb ((Task.id r === id)
                                          && Policy.tasks_all uid (Tables.core d) r))
                          (Db.tasks (Tables.core d))))
               (filter (fun a => negb (refers (Assignment.task_id a)))
                       (Db.task_assignments (Tables.core d))))
            (filter (fun c => negb (refers (Comment.task_id c))) (Tables.comments d)))).

(** *** The board page, whole *)

Module BoardPage.
Record State := mk {
  page : ProjectBoard.State;
  project : option Project.t;
  loading : bool;
  selectedTask : option TaskView;
  isTaskModalOpen : bool;
  location : string }.

Definition setPage (p : State) (pg : ProjectBoard.State) : State :=
  mk pg (project p) (loading p) (selectedTask p) (isTaskModalOpen p) (location p).

Definition setProject (p : State) (pr : Project.t) : State :=
  mk (page p) (Some pr) (loading p) (selectedTask p) (isTaskModalOpen p) (location p).

Definition setBoard (p : State) (b : Board.t) : State :=
  setPage p (ProjectBoard.mk (Some b) (ProjectBoard.tasks (page p))
                             (ProjectBoard.newTaskStatus (page p))
                             (ProjectBoard.newTask_title (page p))
                             (ProjectBoard.newTask_description (page p))
                             (ProjectBoard.isCreateTaskOpen (page p))).

Definition setLoading (p : State) (b : bool) : State :=
  mk (page p) (project p) b (selectedTask p) (isTaskModalOpen p) (location p).

Definition navigate (to : string) (p : State) : State :=
  mk (page p) (project p) (loading p) (selectedTask p) (isTaskModalOpen p) to.

(** [setSelectedTask(task); setIsTaskModalOpen(true)] *)
Definition openTaskModal (task : TaskView) (p : State) : State :=
  mk (page p) (project p) (loading p) (Some task) true (location p).

(** [setIsTaskModalOpen(false); setSelectedTask(null)] *)
Definition onClose (p : State) : State :=
  mk (page p) (project p) (loading p) None false (location p).
End BoardPage.

Definition fetchTasks (boardId : uuid) (p : BoardPage.State) (w : W)
  : BoardPage.State * W :=
  let (pg, w') := lift (ProjectBoard.fetchTasks boardId (BoardPage.page p)) w in
  (BoardPage.setPage p pg, w').

(** [() => board && fetchTasks(board.id)] *)
Definition onTaskUpdate (p : BoardPage.State) (w : W) : BoardPage.State * W :=
  match ProjectBoard.board (BoardPage.page p) with
  | Some b => fetchTasks (Board.id b) p w
  | None => (p, w)
  end.

Definition fetchProjectData (projectId : uuid) (p : BoardPage.State) (w : W)
  : BoardPage.State * W :=
  let failed (p' : BoardPage.State) (w' : W) :=
    (BoardPage.setLoading (BoardPage.navigate "/dashboard" p') false,
     notice_error "Failed to load project data" w') in
  (* Fetch project details *)
  match call (SelectProject projectId) (select_project projectId) w with
  | (inl _, w1) => failed p w1
  | (inr projectData, w1) =>
      let p1 := BoardPage.setProject p projectData in
      (* Fetch the first board for this project *)
      match call (SelectFirstBoard projectId) (select_first_board projectId) w1 with
      | (inl _, w2) => failed p1 w2
      | (inr boardData, w2) =>
          let p2 := BoardPage.setBoard p1 boardData in
          (* Fetch tasks for this board *)
          let (p3, w3) := fetchTasks (Board.id boardData) p2 w2 in
          (BoardPage.setLoading p3 false, w3)
      end
  end.

(** The page's effect on mount:
    [if (!user || !projectId) { navigate('/auth'); return; } fetchProjectData();] *)
Definition onMount (projectId : option uuid) (p : BoardPage.State) (w : W)
  : BoardPage.State * W :=
  match caller w, projectId with
  | Some _, Some id =>
      if id === "" then (BoardPage.navigate "/auth" p, w) else fetchProjectData id p w
  | _, _ => (BoardPage.navigate "/auth" p, w)
  end.

(** *** The task modal, whole *)

Module ModalPage.
Record State := mk {
  modal : TaskModal.State;
  comments : list CommentView;
  newComment : string;
  projectMembers : list uuid }.

Definition setModal (m : State) (x : TaskModal.State) : State :=
  mk x (comments m) (newComment m) (projectMembers m).

Definition setComments (m : State) (l : list CommentView) : State :=
  mk (modal m) l (newComment m) (projectMembers m).

Definition setNewComment (m : State) (x : string) : State :=
  mk (modal m) (comments m) x (projectMembers m).

Definition setProjectMembers (m : State) (l : list uuid) : State :=
  mk (modal m) (comments m) (newComment m) l.
End ModalPage.

Definition fetchComments (task : TaskView) (m : ModalPage.State) (w : W)
  : ModalPage.State * W :=
  match call (SelectComments (tv_id task)) (select_comments (tv_id task)) w with
  | (inr data, w1) => (ModalPage.setComments m data, w1)
  | (inl _, w1) => (m, notice_error "Failed to fetch comments" w1)
  end.

Definition fetchProjectMembers (projectId : uuid) (m : ModalPage.State) (w : W)
  : ModalPage.State * W :=
  match call (SelectMembers projectId) (select_members projectId) w with
  | (inr data, w1) => (ModalPage.setProjectMembers m data, w1)
  | (inl _, w1) => (m, notice_error "Failed to fetch project members" w1)
  end.

Section Trim.
(** [String.prototype.trim], taken as given. *)
Variable trim : string -> string.

Definition handleAddComment (task : TaskView) (m : ModalPage.State) (w : W)
  : ModalPage.State * W :=
  if trim (ModalPage.newComment m) === "" then (m, w)
  else
    match caller w with
    | None => (m, notice_error null_user w)
    | Some user_id =>
        match call (InsertComment (tv_id task) user_id (trim (ModalPage.newComment m)))
                   (insert_comment (tv_id task) user_id (trim (ModalPage.newComment m)))
                   w with
        | (inl message, w1) => (m, notice_error message w1)
        | (inr _, w1) =>
            let (m', w2) := fetchComments task (ModalPage.setNewComment m "") w1 in
            (m', notice_success "Comment added successfully!" w2)
        end
    end.
End Trim.

(** [confirmed] is the answer to [confirm('Are you sure you want to delete this task?')]. *)
Definition handleDeleteTask (confirmed : bool) (task : TaskView)
    (m : ModalPage.State) (p : BoardPage.State) (w : W)
  : ModalPage.State * BoardPage.State * W :=
  if negb confirmed then (m, p, w)
  else
    let done_loading :=
      ModalPage.setModal m (TaskModal.setIsLoading false (ModalPage.modal m)) in
    match call (DeleteTask (tv_id task)) (delete_task (tv_id task)) w with
    | (inl message, w1) => (done_loading, p, notice_error message w1)
    | (inr _, w1) =>
        let (p', w2) := onTaskUpdate p (notice_success "Task deleted successfully!" w1) in
        (done_loading, BoardPage.onClose p', w2)
    end.

End Full.









(** * Properties *)

Local Open Scope list_scope.

(** ** Sorting *)

Section SortFacts.
Context {A : Type}.
Variable cmp : A -> A -> Z.

Lemma insert_by_perm (x : A) (l : list A) : Permutation (insert_by cmp x l) (x :: l).
Proof.
  induction l as [|y l IH]; simpl.
  - reflexivity.
  - destruct (cmp x y <=? 0).
    + reflexivity.
    + rewrite IH. apply perm_swap.
Qed.

Lemma Array_sort_perm (l : list A) : Permutation (Array_sort cmp l) l.
Proof.
  induction l as [|x l IH]; simpl.
  - constructor.
  - rewrite insert_by_perm. now constructor.
Qed.

Lemma Array_sort_In (l : list A) (x : A) : In x (Array_sort cmp l) <-> In x l.
Proof.
  split; apply Permutation_in;
    [apply Array_sort_perm | symmetry; apply Array_sort_perm].
Qed.
End SortFacts.

Section SortByKey.
Context {A : Type}.
Variable key : A -> Z.

Definition key_le (a b : A) : Prop := key a <= key b.

Lemma insert_by_key_sorted (x : A) (l : list A) :
  StronglySorted key_le l ->
  StronglySorted key_le (insert_by (fun a b => key a - key b) x l).
Proof.
  induction 1 as [|y l Hl IH Hy]; simpl.
  - repeat constructor.
  - destruct (Z.leb_spec (key x - key y) 0) as [Hle|Hgt].
    + constructor; [now constructor|].
      constructor; [unfold key_le; lia|].
      eapply Forall_impl; [|exact Hy]. unfold key_le. intros; lia.
    + constructor; [exact IH|].
      eapply Permutation_Forall; [symmetry; apply insert_by_perm|].
      constructor; [unfold key_le; lia | exact Hy].
Qed.

Lemma Array_sort_key_sorted (l : list A) :
  StronglySorted key_le (Array_sort (fun a b => key a - key b) l).
Proof.
  induction l as [|x l IH]; simpl.
  - constructor.
  - now apply insert_by_key_sorted.
Qed.
End SortByKey.

(** ** Columns *)

Lemma getTasksByStatus_In (tasks : list TaskView) (status : string) (t : TaskView) :
  In t (getTasksByStatus tasks status) <-> In t tasks /\ status_label (tv_status t) = status.
Proof.
  unfold getTasksByStatus. rewrite Array_sort_In, filter_In.
  now rewrite String.eqb_eq.
Qed.

Lemma columns_cover (tasks : list TaskView) :
  Permutation (List.concat (map snd (columns tasks))) tasks.
Proof.
  unfold columns, STATUS_COLUMNS, getTasksByStatus; simpl.
  rewrite !Array_sort_perm, app_nil_r.
  induction tasks as [|t tasks IH]; simpl.
  - constructor.
  - destruct (tv_status t); simpl.
    + now constructor.
    + apply Permutation_sym, Permutation_cons_app, Permutation_sym, IH.
    + rewrite app_assoc. apply Permutation_sym, Permutation_cons_app.
      rewrite <- app_assoc. apply Permutation_sym, IH.
    + rewrite !app_assoc. apply Permutation_sym, Permutation_cons_app.
      rewrite <- !app_assoc. apply Permutation_sym, IH.
Qed.

(** C7.  Partitioning a task list by status covers it exactly: the four
    column sequences together are a rearrangement of the input, a task is
    in the column of its own status and in no other, and every column is
    in ascending order of position. *)
Theorem partition_cover (tasks : list TaskView) :
  map fst (columns tasks) = ["todo"; "in_progress"; "review"; "done"]
  /\ Permutation (List.concat (map snd (columns tasks))) tasks
  /\ (forall t, In t tasks ->
        exists c l, In (c, l) (columns tasks) /\ In t l)
  /\ (forall c1 l1 c2 l2 t,
        In (c1, l1) (columns tasks) -> In (c2, l2) (columns tasks) ->
        In t l1 -> In t l2 -> c1 = c2)
  /\ (forall c l, In (c, l) (columns tasks) ->
        StronglySorted (fun a b => tv_position a <= tv_position b) l).
Proof.
  split; [reflexivity|].
  split; [apply columns_cover|].
  assert (Hcol : forall c l, In (c, l) (columns tasks) -> l = getTasksByStatus tasks c).
  { intros c l H. unfold columns in H. apply in_map_iff in H.
    destruct H as (col & E & _). now inversion E. }
  repeat split.
  - intros t Ht. exists (status_label (tv_status t)), (getTasksByStatus tasks (status_label (tv_status t))).
    split.
    + unfold columns, STATUS_COLUMNS. simpl. destruct (tv_status t); simpl; auto.
    + apply getTasksByStatus_In. now split.
  - intros c1 l1 c2 l2 t H1 H2 I1 I2.
    rewrite (Hcol _ _ H1) in I1. rewrite (Hcol _ _ H2) in I2.
    apply getTasksByStatus_In in I1, I2. destruct I1 as [_ <-], I2 as [_ <-]. reflexivity.
  - intros c l H. rewrite (Hcol _ _ H). unfold getTasksByStatus.
    apply (Array_sort_key_sorted tv_position).
Qed.

(** ** Requests *)

Lemma filter_is_write_snoc_write (l : list Request) (r : Request) :
  is_write r = true -> filter is_write (l ++ [r]) = filter is_write l ++ [r].
Proof. intros H. rewrite filter_app; simpl. now rewrite H. Qed.

(** ** The rewriter's verdict on the statements of the pages *)

(** A request whose statement the rewriter refuses comes back with an
    error, the fault's or the rewriter's, and leaves the world as it was
    but for the log. *)
Lemma request_refused {A : Type} (r : Request)
    (exec : Tick -> option uuid -> Db.t -> Response (A * Db.t)) (w : World) :
  (forall t uid d, exists rel, exec t uid d = inl (Store.infinite_recursion rel)) ->
  exists message,
    refusal (env w (List.length (log w))) message
    /\ request r exec w = (inl message, sent w r).
Proof.
  intros H. unfold request, refusal.
  destruct (fault (env w (List.length (log w)))) as [e|].
  - now exists e.
  - destruct (H (env w (List.length (log w))) (session w) (db w)) as (rel & ->).
    exists (Store.infinite_recursion rel). split; [now exists rel | reflexivity].
Qed.

Lemma insert_project_refused (name description : string) (owner : uuid) (t : Tick)
    (uid : option uuid) (d : Db.t) :
  exists rel, Store.insert_project name description owner t uid d
              = inl (Store.infinite_recursion rel).
Proof. now exists Rel.project_members. Qed.

Lemma insert_task_refused (board_id : uuid) (title description status : string)
    (position : Z) (created_by : uuid) (t : Tick) (uid : option uuid) (d : Db.t) :
  exists rel, Store.insert_task board_id title description status position created_by t uid d
              = inl (Store.infinite_recursion rel).
Proof. now exists Rel.project_members. Qed.

Lemma update_task_refused (id : uuid) (p : TaskPatch) (t : Tick) (uid : option uuid)
    (d : Db.t) :
  exists rel, Store.update_task id p t uid d = inl (Store.infinite_recursion rel).
Proof. now exists Rel.project_members. Qed.

Lemma insert_assignment_refused (task_id user_id : uuid) (t : Tick) (uid : option uuid)
    (d : Db.t) :
  exists rel, Store.insert_assignment task_id user_id t uid d
              = inl (Store.infinite_recursion rel).
Proof. now exists Rel.project_members. Qed.

Lemma delete_assignment_refused (task_id user_id : uuid) (t : Tick) (uid : option uuid)
    (d : Db.t) :
  exists rel, Store.delete_assignment task_id user_id t uid d
              = inl (Store.infinite_recursion rel).
Proof. now exists Rel.project_members. Qed.

Lemma select_tasks_refused (boardId : uuid) (t : Tick) (uid : option uuid) (d : Db.t) :
  exists rel, Store.select_tasks boardId t uid d = inl (Store.infinite_recursion rel).
Proof. now exists Rel.project_members. Qed.

Lemma select_projects_refused (t : Tick) (uid : option uuid) (d : Db.t) :
  exists rel, Store.select_projects t uid d = inl (Store.infinite_recursion rel).
Proof. now exists Rel.project_members. Qed.

(** ** What each handler does with the refusal *)

Lemma fetchTasks_refused (boardId : uuid) (st : ProjectBoard.State) (w : World) :
  ProjectBoard.fetchTasks boardId st w
  = (st, toast_error "Failed to fetch tasks" (sent w (SelectTasks boardId))).
Proof.
  unfold ProjectBoard.fetchTasks.
  destruct (request_refused (SelectTasks boardId) (Store.select_tasks boardId) w
              (select_tasks_refused boardId)) as (message & _ & ->).
  reflexivity.
Qed.

Lemma fetchProjects_refused (st : Dashboard.State) (w : World) :
  Dashboard.fetchProjects st w
  = (Dashboard.mk (Dashboard.projects st) false (Dashboard.isCreateDialogOpen st)
                  (Dashboard.newProject_name st) (Dashboard.newProject_description st),
     toast_error "Failed to fetch projects" (sent w SelectProjects)).
Proof.
  unfold Dashboard.fetchProjects.
  destruct (request_refused SelectProjects Store.select_projects w select_projects_refused)
    as (message & _ & ->).
  reflexivity.
Qed.

Lemma handleCreateTask_refused (st : ProjectBoard.State) (w : World) (b : Board.t)
    (u : uuid) :
  ProjectBoard.board st = Some b -> session w = Some u ->
  exists message,
    refusal (env w (List.length (log w))) message
    /\ ProjectBoard.handleCreateTask st w
       = (st, toast_error message
                (sent w (InsertTask (Board.id b) (ProjectBoard.newTask_title st)
                           (ProjectBoard.newTask_description st)
                           (ProjectBoard.newTaskStatus st)
                           (maxPosition (ProjectBoard.tasks st)
                                        (ProjectBoard.newTaskStatus st) + 1)
                           u))).
Proof.
  intros Hb Hu. unfold ProjectBoard.handleCreateTask. rewrite Hb, Hu.
  match goal with
  | |- context [request ?r ?exec w] =>
      destruct (request_refused r exec w) as (message & Hm & ->)
  end.
  - intros t uid d. apply insert_task_refused.
  - now exists message.
Qed.

Lemma not_identity (result : ProjectBoard.DropResult) (dest : ProjectBoard.DraggableLocation) :
  (ProjectBoard.droppableId (ProjectBoard.source result) = ProjectBoard.droppableId dest ->
   ProjectBoard.index (ProjectBoard.source result) = ProjectBoard.index dest -> False) ->
  (ProjectBoard.droppableId (ProjectBoard.source result) === ProjectBoard.droppableId dest)
  && (ProjectBoard.index (ProjectBoard.source result) =? ProjectBoard.index dest) = false.
Proof.
  intros Hmoved.
  destruct (String.eqb_spec (ProjectBoard.droppableId (ProjectBoard.source result))
                            (ProjectBoard.droppableId dest)) as [E|E]; [|reflexivity].
  destruct (Z.eqb_spec (ProjectBoard.index (ProjectBoard.source result))
                       (ProjectBoard.index dest)) as [E'|E']; [|reflexivity].
  destruct (Hmoved E E').
Qed.

Lemma handleDragEnd_refused (result : ProjectBoard.DropResult) (st : ProjectBoard.State)
    (w : World) (dest : ProjectBoard.DraggableLocation) (b : Board.t) :
  ProjectBoard.destination result = Some dest ->
  ProjectBoard.board st = Some b ->
  (ProjectBoard.droppableId (ProjectBoard.source result) = ProjectBoard.droppableId dest ->
   ProjectBoard.index (ProjectBoard.source result) = ProjectBoard.index dest -> False) ->
  ProjectBoard.handleDragEnd result st w
  = (st, toast_error "Failed to update task"
           (sent w (UpdateTask (ProjectBoard.draggableId result)
                               (ProjectBoard.move_patch dest)))).
Proof.
  intros Hd Hb Hm. unfold ProjectBoard.handleDragEnd.
  rewrite Hd, Hb, (not_identity result dest Hm).
  match goal with
  | |- context [request ?r ?exec w] =>
      destruct (request_refused r exec w) as (message & _ & ->)
  end.
  - intros t uid d. apply update_task_refused.
  - reflexivity.
Qed.

(** Whatever the drop, the store is as before and so is the page. *)
Lemma handleDragEnd_frozen (result : ProjectBoard.DropResult) (st : ProjectBoard.State)
    (w : World) :
  fst (ProjectBoard.handleDragEnd result st w) = st
  /\ db (snd (ProjectBoard.handleDragEnd result st w)) = db w.
Proof.
  destruct (ProjectBoard.destination result) as [dest|] eqn:Hd.
  2:{ unfold ProjectBoard.handleDragEnd. rewrite Hd. auto. }
  destruct (ProjectBoard.board st) as [b|] eqn:Hb.
  2:{ unfold ProjectBoard.handleDragEnd. rewrite Hd, Hb. auto. }
  destruct ((ProjectBoard.droppableId (ProjectBoard.source result)
             === ProjectBoard.droppableId dest)
            && (ProjectBoard.index (ProjectBoard.source result)
                =? ProjectBoard.index dest)) eqn:Hi.
  - unfold ProjectBoard.handleDragEnd. rewrite Hd, Hb, Hi. auto.
  - rewrite (handleDragEnd_refused result st w dest b Hd Hb); [auto|].
    intros E1 E2. rewrite E1, E2, String.eqb_refl, Z.eqb_refl in Hi. discriminate Hi.
Qed.

Lemma handleCreateTask_frozen (st : ProjectBoard.State) (w : World) :
  fst (ProjectBoard.handleCreateTask st w) = st
  /\ db (snd (ProjectBoard.handleCreateTask st w)) = db w.
Proof.
  destruct (ProjectBoard.board st) as [b|] eqn:Hb.
  2:{ unfold ProjectBoard.handleCreateTask. rewrite Hb. auto. }
  destruct (session w) as [u|] eqn:Hu.
  2:{ unfold ProjectBoard.handleCreateTask. rewrite Hb, Hu. auto. }
  destruct (handleCreateTask_refused st w b u Hb Hu) as (message & _ & ->). auto.
Qed.

Lemma handleCreateProject_refused (st : Dashboard.State) (w : World) (u : uuid) :
  session w = Some u ->
  exists message,
    refusal (env w (List.length (log w))) message
    /\ Dashboard.handleCreateProject st w
       = (st, toast_error message
                (sent w (InsertProject (Dashboard.newProject_name st)
                                       (Dashboard.newProject_description st) u))).
Proof.
  intros Hu. unfold Dashboard.handleCreateProject. rewrite Hu.
  match goal with
  | |- context [request ?r ?exec w] =>
      destruct (request_refused r exec w) as (message & Hm & ->)
  end.
  - intros t uid d. apply insert_project_refused.
  - now exists message.
Qed.

Lemma handleCreateProject_frozen (st : Dashboard.State) (w : World) :
  fst (Dashboard.handleCreateProject st w) = st
  /\ db (snd (Dashboard.handleCreateProject st w)) = db w.
Proof.
  destruct (session w) as [u|] eqn:Hu.
  - destruct (handleCreateProject_refused st w u Hu) as (message & _ & ->). auto.
  - unfold Dashboard.handleCreateProject. rewrite Hu. auto.
Qed.

Lemma handleSaveTask_refused (task : TaskView) (st : TaskModal.State)
    (page : ProjectBoard.State) (w : World) :
  exists message,
    refusal (env w (List.length (log w))) message
    /\ TaskModal.handleSaveTask task st page w
       = (TaskModal.setIsLoading false st, page,
          toast_error message
            (sent w (UpdateTask (tv_id task) (TaskModal.save_patch (TaskModal.editedTask st))))).
Proof.
  unfold TaskModal.handleSaveTask.
  match goal with
  | |- context [request ?r ?exec w] =>
      destruct (request_refused r exec w) as (message & Hm & ->)
  end.
  - intros t uid d. apply update_task_refused.
  - now exists message.
Qed.

Lemma handleAssignUser_refused (task : TaskView) (userId : uuid)
    (page : ProjectBoard.State) (w : World) :
  exists message,
    refusal (env w (List.length (log w))) message
    /\ TaskModal.handleAssignUser task userId page w
       = (page,
          toast_error message
            (sent w (if existsb (fun a => a === userId) (assignees task)
                     then DeleteAssignment (tv_id task) userId
                     else InsertAssignment (tv_id task) userId))).
Proof.
  unfold TaskModal.handleAssignUser.
  destruct (existsb (fun a => a === userId) (assignees task)).
  - destruct (request_refused (DeleteAssignment (tv_id task) userId)
                (Store.delete_assignment (tv_id task) userId) w)
      as (message & Hm & ->).
    + intros t uid d. apply delete_assignment_refused.
    + now exists message.
  - destruct (request_refused (InsertAssignment (tv_id task) userId)
                (Store.insert_assignment (tv_id task) userId) w)
      as (message & Hm & ->).
    + intros t uid d. apply insert_assignment_refused.
    + now exists message.
Qed.

(** ** Creating a task *)

Lemma Math_max_or_minus1_ge (xs : list Z) :
  -1 <= Math_max_or_minus1 xs /\ Forall (fun x => x <= Math_max_or_minus1 xs) xs.
Proof.
  induction xs as [|x xs [IH1 IH2]]; simpl.
  - split; [lia | constructor].
  - split; [lia|]. constructor; [lia|].
    eapply Forall_impl; [|exact IH2]. simpl. intros; lia.
Qed.

Lemma Math_max_or_minus1_maximum (xs : list Z) (m : Z) :
  is_maximum m xs -> Math_max_or_minus1 xs = Z.max m (-1).
Proof.
  intros [Hin Hall].
  destruct (Math_max_or_minus1_ge xs) as [Hlo Hub].
  rewrite Forall_forall in Hub. specialize (Hub _ Hin).
  assert (Hle : Math_max_or_minus1 xs <= Z.max m (-1)).
  { clear Hin Hlo Hub. induction Hall as [|x xs Hx _ IH]; simpl; lia. }
  lia.
Qed.

Lemma handleCreateTask_request (st : ProjectBoard.State) (w : World) (b : Board.t) (u : uuid) :
  ProjectBoard.board st = Some b -> session w = Some u ->
  nth_error (log (snd (ProjectBoard.handleCreateTask st w))) (List.length (log w))
  = Some (InsertTask (Board.id b) (ProjectBoard.newTask_title st)
            (ProjectBoard.newTask_description st) (ProjectBoard.newTaskStatus st)
            (computeInsertPosition
               (filter (fun t => status_label (tv_status t) === ProjectBoard.newTaskStatus st)
                       (ProjectBoard.tasks st)))
            u).
Proof.
  intros Hb Hu. destruct (handleCreateTask_refused st w b u Hb Hu) as (message & _ & ->).
  unfold computeInsertPosition, maxPosition. simpl.
  now rewrite nth_error_app2, Nat.sub_diag by lia.
Qed.

(** C2 (as stated) fails on a column whose only task sits at position -5:
    the greatest existing position is -5, the position computed is 0, not -4. *)
Lemma computeInsertPosition_negative :
  is_maximum (-5) (map tv_position [sample_view "t1" todo (-5)])
  /\ computeInsertPosition [sample_view "t1" todo (-5)] = 0
  /\ computeInsertPosition [sample_view "t1" todo (-5)] <> -5 + 1.
Proof.
  split; [split|split].
  - now left.
  - constructor; [vm_compute; discriminate | constructor].
  - reflexivity.
  - discriminate.
Qed.

(** C2 (amended).  The position of a new task is one more than the greater
    of -1 and the greatest existing position of the target status: one more
    than the greatest existing position when that is at least -1 (so for
    all non-negative positions), and 0 for no task or for positions all
    below -1.  It is 0 for the empty list and 3 for positions 0 and 2, it
    exceeds every existing position, and it is the position that
    [handleCreateTask] sends. *)
Theorem computeInsertPosition_spec (existing : list TaskView) :
  computeInsertPosition [] = 0
  /\ computeInsertPosition [sample_view "t1" todo 0; sample_view "t2" todo 2] = 3
  /\ (forall m, is_maximum m (map tv_position existing) ->
        computeInsertPosition existing = Z.max m (-1) + 1)
  /\ (forall m, is_maximum m (map tv_position existing) -> -1 <= m ->
        computeInsertPosition existing = m + 1)
  /\ Forall (fun t => tv_position t < computeInsertPosition existing) existing
  /\ (forall st w b u,
        ProjectBoard.board st = Some b -> session w = Some u ->
        existing = filter (fun t => status_label (tv_status t) === ProjectBoard.newTaskStatus st)
                          (ProjectBoard.tasks st) ->
        nth_error (log (snd (ProjectBoard.handleCreateTask st w))) (List.length (log w))
        = Some (InsertTask (Board.id b) (ProjectBoard.newTask_title st)
                  (ProjectBoard.newTask_description st) (ProjectBoard.newTaskStatus st)
                  (computeInsertPosition existing) u)).
Proof.
  repeat split; try reflexivity.
  - intros m Hm. unfold computeInsertPosition.
    now rewrite (Math_max_or_minus1_maximum _ _ Hm).
  - intros m Hm Hlo. unfold computeInsertPosition.
    rewrite (Math_max_or_minus1_maximum _ _ Hm). lia.
  - unfold computeInsertPosition.
    destruct (Math_max_or_minus1_ge (map tv_position existing)) as [_ H].
    rewrite Forall_map in H. eapply Forall_impl; [|exact H]. simpl. intros; lia.
  - intros st w b u Hb Hu ->. now apply handleCreateTask_request.
Qed.

(** ** Moving a task *)



(** C5.  Dropping a task in the column and at the index it was picked up
    from does nothing: no request is sent (the log is the same), and the
    store, the page and the notifications are as before. *)
Theorem identity_move_is_noop (result : ProjectBoard.DropResult)
    (st : ProjectBoard.State) (w : World) (dest : ProjectBoard.DraggableLocation) :
  ProjectBoard.destination result = Some dest ->
  ProjectBoard.droppableId (ProjectBoard.source result) = ProjectBoard.droppableId dest ->
  ProjectBoard.index (ProjectBoard.source result) = ProjectBoard.index dest ->
  ProjectBoard.handleDragEnd result st w = (st, w).
Proof.
  intros Hd Hs Hi. unfold ProjectBoard.handleDragEnd.
  rewrite Hd, Hs, Hi, String.eqb_refl, Z.eqb_refl. simpl.
  now destruct (ProjectBoard.board st).
Qed.

Lemma identity_move_is_noop_witness :
  ProjectBoard.handleDragEnd sample_identity_move sample_page sample_world
  = (sample_page, sample_world).
Proof.
  apply (identity_move_is_noop sample_identity_move sample_page sample_world
           (ProjectBoard.mkLocation "todo" 0)); reflexivity.
Defined.

(** C6.  A move that is not the identity sends one write: an update of the
    dragged task whose field set is exactly status = destination column and
    position = destination index; no field of a sibling is in it.  In the
    store no other task row changes, and the dragged row either stays as
    it was or takes that status and that index as its position. *)
Theorem move_mutation (result : ProjectBoard.DropResult) (st : ProjectBoard.State)
    (w : World) (dest : ProjectBoard.DraggableLocation) (b : Board.t) :
  ProjectBoard.destination result = Some dest ->
  ProjectBoard.board st = Some b ->
  (ProjectBoard.droppableId (ProjectBoard.source result) = ProjectBoard.droppableId dest ->
   ProjectBoard.index (ProjectBoard.source result) = ProjectBoard.index dest -> False) ->
  let tick := env w (List.length (log w)) in
  let w' := snd (ProjectBoard.handleDragEnd result st w) in
  let old := Db.tasks (db w) in
  let new := Db.tasks (db w') in
  filter is_write (log w')
  = filter is_write (log w)
    ++ [UpdateTask (ProjectBoard.draggableId result)
          (mkTaskPatch None None (Some (ProjectBoard.droppableId dest))
                       (Some (ProjectBoard.index dest)) None)]
  /\ List.length new = List.length old
  /\ (forall i r, nth_error old i = Some r ->
        Task.id r <> ProjectBoard.draggableId result -> nth_error new i = Some r)
  /\ (forall i r, nth_error old i = Some r ->
        Task.id r = ProjectBoard.draggableId result ->
        nth_error new i = Some r
        \/ exists s, parse_status (ProjectBoard.droppableId dest) = Some s
                     /\ nth_error new i
                        = Some (moved s (ProjectBoard.index dest) (now tick) r)).
Proof.
  intros Hd Hb Hm tick w' old new. subst w' new old.
  rewrite (handleDragEnd_refused result st w dest b Hd Hb Hm). simpl.
  split; [now apply filter_is_write_snoc_write|].
  repeat split; auto.
Qed.

Lemma move_mutation_witness :
  filter is_write
         (log (snd (ProjectBoard.handleDragEnd sample_move_across sample_page sample_world)))
  = [UpdateTask "t1" (mkTaskPatch None None (Some "review") (Some 0) None)]
  /\ nth_error
       (Db.tasks (db (snd (ProjectBoard.handleDragEnd sample_move_across sample_page
                                                      sample_world)))) 1
     = Some (sample_task "t2" todo 1).
Proof.
  assert (Hm : ProjectBoard.droppableId (ProjectBoard.source sample_move_across)
               = ProjectBoard.droppableId (ProjectBoard.mkLocation "review" 0) ->
               ProjectBoard.index (ProjectBoard.source sample_move_across)
               = ProjectBoard.index (ProjectBoard.mkLocation "review" 0) -> False).
  { intros E _. discriminate E. }
  destruct (move_mutation sample_move_across sample_page sample_world
              (ProjectBoard.mkLocation "review" 0) sample_board eq_refl eq_refl Hm)
    as (Hlog & _ & Hothers & _).
  split; [exact Hlog|].
  apply Hothers; [reflexivity | discriminate].
Defined.




(** ** Seeing and listing projects *)

(** C3.  The store holds project p1, owned by u1, and a membership row of
    u2 for p1.  The view policy's expression is false for u2: its
    sub-select compares the member row's project with the member row's own
    key ([WHERE project_id = id], where [id] is the membership's), so a
    member who is not the owner does not pass it.  And the expression is
    not what decides: the rewriter refuses the dashboard's listing for
    u2 and for the owner alike, who both see no project and a failure. *)
Lemma member_is_not_admitted_nor_listed :
  In (Member.mk "m2" "p1" "u2" role_member 20) (Db.project_members shared_db)
  /\ In orphan_project (Db.projects shared_db)
  /\ Policy.projects_select (Some "u2") shared_db orphan_project = false
  /\ Policy.projects_select (Some "u1") shared_db orphan_project = true
  /\ Policy.rewrite (Policy.mk_statement Rel.projects SELECT true [Rel.project_members])
     = Some Rel.project_members
  /\ Dashboard.fetchProjects fresh_dashboard member_world
     = (Dashboard.mk [] false false "" "",
        mkWorld shared_db (Some "u2") quiet_env [SelectProjects]
                [mkToast "Error" "Failed to fetch projects" true])
  /\ Dashboard.fetchProjects fresh_dashboard owner_world
     = (Dashboard.mk [] false false "" "",
        mkWorld shared_db (Some "u1") quiet_env [SelectProjects]
                [mkToast "Error" "Failed to fetch projects" true]).
Proof.
  split; [simpl; auto|]. split; [simpl; auto|]. repeat split.
Qed.

(** ** Creating a project *)



(** ** Toggling an assignment *)

(** C8.  In the sample store u1 is a member of the project of task t1 and
    is not assigned to it, and the expression of the policy on assignments
    admits the row; the modal shows t1 without assignees.  Toggling u1
    sends the insert, the rewriter refuses it, no row is added and the
    error is shown.  With the assignment stored and shown, toggling sends
    the delete, which is refused the same way: the row stays. *)
Lemma assign_is_refused :
  existsb (assigns "t1" "u1") (Db.task_assignments (db sample_world)) = false
  /\ Policy.assignments_all (Some "u1") sample_db (Assignment.mk "n0" "t1" "u1" 200) = true
  /\ Policy.rewrite (Policy.mk_statement Rel.task_assignments INSERT false [])
     = Some Rel.project_members
  /\ TaskModal.handleAssignUser (sample_view "t1" todo 0) "u1" sample_page sample_world
     = (sample_page,
        mkWorld sample_db (Some "u1") quiet_env [InsertAssignment "t1" "u1"]
                [mkToast "Error" (Store.infinite_recursion Rel.project_members) true])
  /\ Db.task_assignments
       (db (snd (TaskModal.handleAssignUser (sample_view "t1" todo 0) "u1" sample_page
                                            sample_world)))
     = []
  /\ TaskModal.handleAssignUser (mkTaskView (sample_task "t1" todo 0) ["u1"]) "u1"
                                sample_page assigned_world
     = (sample_page,
        mkWorld assigned_db (Some "u1") quiet_env [DeleteAssignment "t1" "u1"]
                [mkToast "Error" (Store.infinite_recursion Rel.project_members) true]).
Proof. repeat split. Qed.

(** ** Failing reads *)

(** C9 (as stated) fails: a page that holds tasks (a dashboard that holds
    projects) still holds them after a failed read; the result is the
    stale one, not the empty one. *)
Lemma failed_read_keeps_stale_result :
  fault (env down_world (List.length (log down_world))) = Some "Failed to fetch"
  /\ ProjectBoard.tasks (fst (ProjectBoard.fetchTasks "b1" sample_page down_world))
     = [sample_view "t1" todo 0; sample_view "t2" todo 1]
  /\ ProjectBoard.tasks (fst (ProjectBoard.fetchTasks "b1" sample_page down_world)) <> []
  /\ Dashboard.projects (fst (Dashboard.fetchProjects loaded_dashboard down_world))
     = [mkProjectView orphan_project 1]
  /\ Dashboard.projects (fst (Dashboard.fetchProjects loaded_dashboard down_world)) <> [].
Proof. repeat split; discriminate. Qed.

(** C9 (amended).  A read that fails returns normally: it shows one
    notification, leaves the store alone and leaves the page with the
    result it held before the read (so with the empty one when nothing had
    been loaded); the dashboard also stops showing its loading state. *)
Theorem failed_read_falls_back (boardId : uuid) (page : ProjectBoard.State)
    (dash : Dashboard.State) (w : World) (e : string) :
  fault (env w (List.length (log w))) = Some e ->
  ProjectBoard.fetchTasks boardId page w
  = (page,
     mkWorld (db w) (session w) (env w) (log w ++ [SelectTasks boardId])
             (toasts w ++ [mkToast "Error" "Failed to fetch tasks" true]))
  /\ Dashboard.fetchProjects dash w
     = (Dashboard.mk (Dashboard.projects dash) false (Dashboard.isCreateDialogOpen dash)
                     (Dashboard.newProject_name dash) (Dashboard.newProject_description dash),
        mkWorld (db w) (session w) (env w) (log w ++ [SelectProjects])
                (toasts w ++ [mkToast "Error" "Failed to fetch projects" true]))
  /\ (ProjectBoard.tasks page = [] ->
      ProjectBoard.tasks (fst (ProjectBoard.fetchTasks boardId page w)) = [])
  /\ (Dashboard.projects dash = [] ->
      Dashboard.projects (fst (Dashboard.fetchProjects dash w)) = []).
Proof.
  intros Hf.
  unfold ProjectBoard.fetchTasks, Dashboard.fetchProjects, request. rewrite Hf. simpl.
  repeat split; auto.
Qed.

Lemma failed_read_falls_back_witness :
  ProjectBoard.fetchTasks "b1" sample_page down_world
  = (sample_page,
     mkWorld sample_db (Some "u1") down_env [SelectTasks "b1"]
             [mkToast "Error" "Failed to fetch tasks" true]).
Proof.
  apply (failed_read_falls_back "b1" sample_page loaded_dashboard down_world
           "Failed to fetch" eq_refl).
Defined.

(** ** Saving from the modal *)

(** C10.  Saving from the modal sends one update of the task, whose field
    set is exactly title, description, status and due date.  Every task
    row keeps every other column: id, board, position, creator, creation
    time and [updated_at]; in particular the position is the old one also
    when the status was changed in the modal.  No row is added or removed
    and no other table changes. *)
Theorem save_task_frame (task : TaskView) (st : TaskModal.State)
    (page : ProjectBoard.State) (w : World) :
  let w' := snd (TaskModal.handleSaveTask task st page w) in
  let edited := row (TaskModal.editedTask st) in
  let old := Db.tasks (db w) in
  let new := Db.tasks (db w') in
  filter is_write (log w')
  = filter is_write (log w)
    ++ [UpdateTask (tv_id task)
          (mkTaskPatch (Some (Task.title edited)) (Some (Task.description edited))
                       (Some (status_label (Task.status edited))) None
                       (Some (Task.due_date edited)))]
  /\ Db.projects (db w') = Db.projects (db w)
  /\ Db.project_members (db w') = Db.project_members (db w)
  /\ Db.boards (db w') = Db.boards (db w)
  /\ Db.task_assignments (db w') = Db.task_assignments (db w)
  /\ List.length new = List.length old
  /\ (forall i r, nth_error old i = Some r -> exists r',
        nth_error new i = Some r'
        /\ Task.id r' = Task.id r /\ Task.board_id r' = Task.board_id r
        /\ Task.position r' = Task.position r
        /\ Task.created_by r' = Task.created_by r
        /\ Task.created_at r' = Task.created_at r
        /\ Task.updated_at r' = Task.updated_at r).
Proof.
  intros w' edited old new. subst w' new old edited.
  destruct (handleSaveTask_refused task st page w) as (message & _ & ->). simpl.
  split; [now apply filter_is_write_snoc_write|].
  repeat split. intros i r Hn. exists r. repeat split. exact Hn.
Qed.

(** * Further properties of the pages and the store *)

(** ** The statements of the pages and the rewriter *)


(** ** The store after every handler *)

Lemma handleSaveTask_frozen (task : TaskView) (st : TaskModal.State)
    (page : ProjectBoard.State) (w : World) :
  db (snd (TaskModal.handleSaveTask task st page w)) = db w.
Proof. now destruct (handleSaveTask_refused task st page w) as (message & _ & ->). Qed.

Lemma handleAssignUser_frozen (task : TaskView) (userId : uuid)
    (page : ProjectBoard.State) (w : World) :
  db (snd (TaskModal.handleAssignUser task userId page w)) = db w.
Proof. now destruct (handleAssignUser_refused task userId page w) as (message & _ & ->). Qed.







(** ** Isolation *)



(** X5.  The pages change no row.  After any handler of the board, the
    dashboard and the modal, with any arguments, for any caller and
    whatever the environment does, every table of the store is what it
    was. *)
Theorem pages_change_no_row (w : World) :
  (forall st, db (snd (ProjectBoard.handleCreateTask st w)) = db w)
  /\ (forall result st, db (snd (ProjectBoard.handleDragEnd result st w)) = db w)
  /\ (forall st, db (snd (Dashboard.handleCreateProject st w)) = db w)
  /\ (forall task st page, db (snd (TaskModal.handleSaveTask task st page w)) = db w)
  /\ (forall task userId page,
        db (snd (TaskModal.handleAssignUser task userId page w)) = db w)
  /\ (forall boardId st, db (snd (ProjectBoard.fetchTasks boardId st w)) = db w)
  /\ (forall st, db (snd (Dashboard.fetchProjects st w)) = db w).
Proof.
  repeat apply conj; intros.
  - apply handleCreateTask_frozen.
  - apply handleDragEnd_frozen.
  - apply handleCreateProject_frozen.
  - apply handleSaveTask_frozen.
  - apply handleAssignUser_frozen.
  - now rewrite fetchTasks_refused.
  - now rewrite fetchProjects_refused.
Qed.

(** ** The board page *)

(** X3.  The tasks of a board never load.  Whatever the store holds and
    whoever asks, [fetchTasks] sends its read, leaves the page's task list
    as it was (empty, on a page that has just been opened) and notifies
    "Failed to fetch tasks". *)
Theorem task_list_never_loads (boardId : uuid) (st : ProjectBoard.State) (w : World) :
  ProjectBoard.fetchTasks boardId st w
  = (st,
     mkWorld (db w) (session w) (env w) (log w ++ [SelectTasks boardId])
             (toasts w ++ [mkToast "Error" "Failed to fetch tasks" true])).
Proof. apply fetchTasks_refused. Qed.

(** X6.  A task cannot be created.  With a board on the page and a
    session, [handleCreateTask] sends its insert (in the dialog's status,
    one position past the greatest the page shows for it), which is
    refused: no row is added, the dialog stays open with its input, the
    error's message is shown and the task list is not read again. *)
Theorem create_task_is_refused (st : ProjectBoard.State) (w : World) (b : Board.t)
    (u : uuid) :
  ProjectBoard.board st = Some b -> session w = Some u ->
  exists message,
    refusal (env w (List.length (log w))) message
    /\ ProjectBoard.handleCreateTask st w
       = (st,
          mkWorld (db w) (session w) (env w)
                  (log w ++ [InsertTask (Board.id b) (ProjectBoard.newTask_title st)
                               (ProjectBoard.newTask_description st)
                               (ProjectBoard.newTaskStatus st)
                               (maxPosition (ProjectBoard.tasks st)
                                            (ProjectBoard.newTaskStatus st) + 1)
                               u])
                  (toasts w ++ [mkToast "Error" message true])).
Proof. intros Hb Hu. exact (handleCreateTask_refused st w b u Hb Hu). Qed.

Lemma create_task_is_refused_witness :
  fst (ProjectBoard.handleCreateTask sample_page sample_world) = sample_page
  /\ db (snd (ProjectBoard.handleCreateTask sample_page sample_world)) = sample_db
  /\ log (snd (ProjectBoard.handleCreateTask sample_page sample_world))
     = [InsertTask "b1" "Call client" "" "todo" 2 "u1"].
Proof.
  destruct (create_task_is_refused sample_page sample_world sample_board "u1"
              eq_refl eq_refl) as (message & _ & ->).
  repeat split.
Defined.




(** X9.  A task cannot be moved.  A drop that is not the identity sends its
    update, which is refused: the store and the page are as before, the
    task list is not read again and "Failed to update task" is shown. *)
Theorem drag_is_refused (result : ProjectBoard.DropResult) (st : ProjectBoard.State)
    (w : World) (dest : ProjectBoard.DraggableLocation) (b : Board.t) :
  ProjectBoard.destination result = Some dest ->
  ProjectBoard.board st = Some b ->
  (ProjectBoard.droppableId (ProjectBoard.source result) = ProjectBoard.droppableId dest ->
   ProjectBoard.index (ProjectBoard.source result) = ProjectBoard.index dest -> False) ->
  ProjectBoard.handleDragEnd result st w
  = (st,
     mkWorld (db w) (session w) (env w)
             (log w ++ [UpdateTask (ProjectBoard.draggableId result)
                          (ProjectBoard.move_patch dest)])
             (toasts w ++ [mkToast "Error" "Failed to update task" true])).
Proof. intros Hd Hb Hm. exact (handleDragEnd_refused result st w dest b Hd Hb Hm). Qed.

Lemma drag_is_refused_witness :
  ProjectBoard.handleDragEnd sample_move_across sample_page sample_world
  = (sample_page,
     mkWorld sample_db (Some "u1") quiet_env
             [UpdateTask "t1" (mkTaskPatch None None (Some "review") (Some 0) None)]
             [mkToast "Error" "Failed to update task" true]).
Proof.
  apply (drag_is_refused sample_move_across sample_page sample_world
           (ProjectBoard.mkLocation "review" 0) sample_board eq_refl eq_refl).
  intros E _. discriminate E.
Defined.


Lemma insert_by_head {A : Type} (key : A -> Z) (x : A) (l : list A) :
  Forall (fun y => key x <= key y) l ->
  insert_by (fun a b => key a - key b) x l = x :: l.
Proof.
  intros H. destruct l as [|y l]; simpl; [reflexivity|].
  inversion H; subst. destruct (Z.leb_spec (key x - key y) 0); [reflexivity | lia].
Qed.

Lemma Array_sort_sorted_same {A : Type} (key : A -> Z) (l : list A) :
  StronglySorted (key_le key) l -> Array_sort (fun a b => key a - key b) l = l.
Proof.
  induction 1 as [|x l Hl IH Hx]; simpl; [reflexivity|].
  rewrite IH. now apply insert_by_head.
Qed.

Lemma StronglySorted_filter {A : Type} (R : A -> A -> Prop) (f : A -> bool) (l : list A) :
  StronglySorted R l -> StronglySorted R (filter f l).
Proof.
  induction 1 as [|x l Hl IH Hx]; simpl; [constructor|].
  destruct (f x); [|exact IH].
  constructor; [exact IH|].
  rewrite Forall_forall in *. intros y Hy. apply filter_In in Hy. now apply Hx.
Qed.

(** X13.  On a task list that is in ascending order of position, as the
    board's read asks for it ([.order('position')]), a column is the list
    filtered by the column's status: the sort moves nothing, so the
    columns show the tasks in the order of the list. *)
Theorem sorted_columns_are_filters (tasks : list TaskView) (status : string) :
  StronglySorted (fun a b => tv_position a <= tv_position b) tasks ->
  getTasksByStatus tasks status
  = filter (fun task => status_label (tv_status task) === status) tasks.
Proof.
  intros Hs. unfold getTasksByStatus.
  apply (Array_sort_sorted_same tv_position). now apply StronglySorted_filter.
Qed.

Lemma sorted_columns_are_filters_witness :
  getTasksByStatus (ProjectBoard.tasks gapped_page) "todo"
  = [sample_view "t1" todo 0; sample_view "t2" todo 2].
Proof.
  rewrite (sorted_columns_are_filters (ProjectBoard.tasks gapped_page) "todo");
    [reflexivity|].
  simpl. repeat constructor; vm_compute; discriminate.
Defined.

(** ** The dashboard *)

(** X12.  The dashboard never lists a project.  Whatever the store holds
    and whoever asks, [fetchProjects] sends its read, keeps the list it
    had (empty, on a dashboard that has just been opened), stops showing
    the loading state and notifies "Failed to fetch projects". *)
Theorem projects_never_listed (st : Dashboard.State) (w : World) :
  Dashboard.fetchProjects st w
  = (Dashboard.mk (Dashboard.projects st) false (Dashboard.isCreateDialogOpen st)
                  (Dashboard.newProject_name st) (Dashboard.newProject_description st),
     mkWorld (db w) (session w) (env w) (log w ++ [SelectProjects])
             (toasts w ++ [mkToast "Error" "Failed to fetch projects" true])).
Proof. apply fetchProjects_refused. Qed.

(** X10.  A project cannot be created.  With a session,
    [handleCreateProject] sends the insert of the project, asking for the
    row back, and stops there: no project, membership or board is stored,
    the two later inserts and the refresh are not sent, the dialog stays
    open with its input and the error's message is shown. *)
Theorem create_project_is_refused (st : Dashboard.State) (w : World) (u : uuid) :
  session w = Some u ->
  exists message,
    refusal (env w (List.length (log w))) message
    /\ Dashboard.handleCreateProject st w
       = (st,
          mkWorld (db w) (session w) (env w)
                  (log w ++ [InsertProject (Dashboard.newProject_name st)
                                           (Dashboard.newProject_description st) u])
                  (toasts w ++ [mkToast "Error" message true])).
Proof. intros Hu. exact (handleCreateProject_refused st w u Hu). Qed.

Lemma create_project_is_refused_witness :
  fst (Dashboard.handleCreateProject acme_dialog empty_world) = acme_dialog
  /\ db (snd (Dashboard.handleCreateProject acme_dialog empty_world)) = empty_db
  /\ log (snd (Dashboard.handleCreateProject acme_dialog empty_world))
     = [InsertProject "Acme" "Rocket skates" "u1"].
Proof.
  destruct (create_project_is_refused acme_dialog empty_world "u1" eq_refl)
    as (message & _ & ->).
  repeat split.
Defined.

(** ** The task modal *)

(** X24.  An edit cannot be saved.  [handleSaveTask] sends its update,
    which is refused: no row changes, the error's message is shown, the
    board is not asked to read its tasks again, and the modal stops
    showing the loading state. *)
Theorem save_is_refused (task : TaskView) (st : TaskModal.State)
    (page : ProjectBoard.State) (w : World) :
  exists message,
    refusal (env w (List.length (log w))) message
    /\ TaskModal.handleSaveTask task st page w
       = (TaskModal.mk (TaskModal.editedTask st) false, page,
          mkWorld (db w) (session w) (env w)
                  (log w ++ [UpdateTask (tv_id task)
                               (TaskModal.save_patch (TaskModal.editedTask st))])
                  (toasts w ++ [mkToast "Error" message true])).
Proof. exact (handleSaveTask_refused task st page w). Qed.

(** X14.  An assignment cannot be toggled.  [handleAssignUser] sends its
    one write, the delete for an identity the modal shows as assigned and
    the insert otherwise, and it is refused: the assignments are as
    before, the error's message is shown and the board is not asked to
    read its tasks again. *)
Theorem assignment_toggle_is_refused (task : TaskView) (userId : uuid)
    (page : ProjectBoard.State) (w : World) :
  exists message,
    refusal (env w (List.length (log w))) message
    /\ TaskModal.handleAssignUser task userId page w
       = (page,
          mkWorld (db w) (session w) (env w)
                  (log w ++ [if existsb (fun a => a === userId) (assignees task)
                             then DeleteAssignment (tv_id task) userId
                             else InsertAssignment (tv_id task) userId])
                  (toasts w ++ [mkToast "Error" message true])).
Proof. exact (handleAssignUser_refused task userId page w). Qed.

Lemma handleAssignUser_log (task : TaskView) (userId : uuid)
    (page : ProjectBoard.State) (w : World) :
  filter is_write (log (snd (TaskModal.handleAssignUser task userId page w)))
  = filter is_write (log w)
    ++ [if existsb (fun a => a === userId) (assignees task)
        then DeleteAssignment (tv_id task) userId
        else InsertAssignment (tv_id task) userId].
Proof.
  destruct (handleAssignUser_refused task userId page w) as (message & _ & ->). simpl.
  apply filter_is_write_snoc_write. now destruct (existsb _ _).
Qed.

(** X15.  The modal's two lists never offer both actions for one identity:
    a project member is under "Add assignee" exactly when the task does
    not show it as an assignee; a click there sends an insert, never a
    delete, and a click on an assignee's "Remove" sends a delete, never an
    insert. *)
Theorem assignee_buttons (projectMembers : list uuid) (task : TaskView)
    (page : ProjectBoard.State) (w : World) :
  (forall m, In m (addable_members projectMembers task)
             <-> In m projectMembers /\ ~ In m (assignees task))
  /\ (forall m, In m (addable_members projectMembers task) ->
        filter is_write (log (snd (TaskModal.handleAssignUser task m page w)))
        = filter is_write (log w) ++ [InsertAssignment (tv_id task) m])
  /\ (forall a, In a (assignees task) ->
        filter is_write (log (snd (TaskModal.handleAssignUser task a page w)))
        = filter is_write (log w) ++ [DeleteAssignment (tv_id task) a]).
Proof.
  assert (Hex : forall m, existsb (fun a => a === m) (assignees task) = true
                          <-> In m (assignees task)).
  { intros m. rewrite existsb_exists. split.
    - intros (a & Ha & E). apply String.eqb_eq in E. now subst.
    - intros H. exists m. split; [exact H | apply String.eqb_refl]. }
  assert (Hadd : forall m, In m (addable_members projectMembers task)
                           <-> In m projectMembers /\ ~ In m (assignees task)).
  { intros m. unfold addable_members. rewrite filter_In, negb_true_iff.
    rewrite <- Hex. now destruct (existsb _ _); intuition congruence. }
  split; [exact Hadd|]. split.
  - intros m Hm. apply Hadd in Hm. destruct Hm as [_ Hm].
    rewrite handleAssignUser_log.
    destruct (existsb (fun a => a === m) (assignees task)) eqn:E; [|reflexivity].
    apply Hex in E. contradiction.
  - intros a Ha. rewrite handleAssignUser_log.
    apply Hex in Ha. now rewrite Ha.
Qed.

(** * The full world *)

Lemma tables_eta (d : Full.Tables.t) :
  Full.Tables.mk (Full.Tables.core d) (Full.Tables.comments d) = d.
Proof. now destruct d. Qed.

Lemma call_refused {A : Type} (c : Full.Call)
    (exec : Tick -> option uuid -> Full.Tables.t -> Response (A * Full.Tables.t))
    (w : Full.W) :
  (forall t uid d, exists rel, exec t uid d = inl (Store.infinite_recursion rel)) ->
  exists message,
    refusal (Full.clock w (List.length (Full.calls w))) message
    /\ Full.call c exec w
       = (inl message,
          Full.mkW (Full.tables w) (Full.caller w) (Full.clock w) (Full.calls w ++ [c])
                   (Full.notices w)).
Proof.
  intros H. unfold Full.call, refusal.
  destruct (fault (Full.clock w (List.length (Full.calls w)))) as [e|].
  - now exists e.
  - destruct (H (Full.clock w (List.length (Full.calls w))) (Full.caller w) (Full.tables w))
      as (rel & ->).
    exists (Store.infinite_recursion rel). split; [now exists rel | reflexivity].
Qed.

(** ** Loading the board page *)

Lemma fetchProjectData_refused (projectId : uuid) (p : Full.BoardPage.State) (w : Full.W) :
  Full.fetchProjectData projectId p w
  = (Full.BoardPage.mk (Full.BoardPage.page p) (Full.BoardPage.project p) false
                       (Full.BoardPage.selectedTask p) (Full.BoardPage.isTaskModalOpen p)
                       "/dashboard",
     Full.mkW (Full.tables w) (Full.caller w) (Full.clock w)
              (Full.calls w ++ [Full.SelectProject projectId])
              (Full.notices w ++ [mkToast "Error" "Failed to load project data" true])).
Proof.
  unfold Full.fetchProjectData.
  destruct (call_refused (Full.SelectProject projectId) (Full.select_project projectId) w)
    as (message & _ & ->).
  - intros t uid d. now exists Rel.project_members.
  - reflexivity.
Qed.

(** X26.  The board page never opens.  Whatever the store holds and
    whoever asks, [fetchProjectData] sends the read of the project, which
    is refused: the page notifies "Failed to load project data", leaves
    for the dashboard with the loading state off, holds no project and no
    board it did not hold before, and asks for no board and no task. *)
Theorem project_page_never_opens (projectId : uuid) (p : Full.BoardPage.State)
    (w : Full.W) :
  Full.fetchProjectData projectId p w
  = (Full.BoardPage.mk (Full.BoardPage.page p) (Full.BoardPage.project p) false
                       (Full.BoardPage.selectedTask p) (Full.BoardPage.isTaskModalOpen p)
                       "/dashboard",
     Full.mkW (Full.tables w) (Full.caller w) (Full.clock w)
              (Full.calls w ++ [Full.SelectProject projectId])
              (Full.notices w ++ [mkToast "Error" "Failed to load project data" true])).
Proof. apply fetchProjectData_refused. Qed.




(** ** Deleting a task *)

Lemma handleDeleteTask_refused (confirmed : bool) (task : TaskView)
    (m : Full.ModalPage.State) (p : Full.BoardPage.State) (w : Full.W) :
  let r := Full.handleDeleteTask confirmed task m p w in
  (confirmed = false -> r = (m, p, w))
  /\ (confirmed = true ->
      exists message,
        refusal (Full.clock w (List.length (Full.calls w))) message
        /\ r = (Full.ModalPage.setModal m
                  (TaskModal.mk (TaskModal.editedTask (Full.ModalPage.modal m)) false),
                p,
                Full.mkW (Full.tables w) (Full.caller w) (Full.clock w)
                         (Full.calls w ++ [Full.DeleteTask (tv_id task)])
                         (Full.notices w ++ [mkToast "Error" message true]))).
Proof.
  intros r. subst r. unfold Full.handleDeleteTask. split.
  - now intros ->.
  - intros ->. simpl.
    destruct (call_refused (Full.DeleteTask (tv_id task)) (Full.delete_task (tv_id task)) w)
      as (message & Hm & ->).
    + intros t uid d. now exists Rel.project_members.
    + now exists message.
Qed.

(** X19.  A task cannot be deleted.  When the confirmation is declined
    nothing happens and no request is sent.  When it is given,
    [handleDeleteTask] sends its delete, which is refused: the task, its
    assignments and its comments stay, the error's message is shown, the
    modal stays open on the task with the loading state off, and the board
    is not asked to read its tasks again. *)
Theorem delete_task_is_refused (confirmed : bool) (task : TaskView)
    (m : Full.ModalPage.State) (p : Full.BoardPage.State) (w : Full.W) :
  let r := Full.handleDeleteTask confirmed task m p w in
  (confirmed = false -> r = (m, p, w))
  /\ (confirmed = true ->
      exists message,
        refusal (Full.clock w (List.length (Full.calls w))) message
        /\ r = (Full.ModalPage.setModal m
                  (TaskModal.mk (TaskModal.editedTask (Full.ModalPage.modal m)) false),
                p,
                Full.mkW (Full.tables w) (Full.caller w) (Full.clock w)
                         (Full.calls w ++ [Full.DeleteTask (tv_id task)])
                         (Full.notices w ++ [mkToast "Error" message true]))).
Proof. apply handleDeleteTask_refused. Qed.




(** ** Comments *)

(** X22.  The comments of a task never load.  Whatever the store holds
    and whoever asks, [fetchComments] sends its read, keeps the modal's
    list (empty, in a modal that has just been opened) and notifies
    "Failed to fetch comments". *)
Theorem comments_never_load (task : TaskView) (m : Full.ModalPage.State) (w : Full.W) :
  Full.fetchComments task m w
  = (m,
     Full.mkW (Full.tables w) (Full.caller w) (Full.clock w)
              (Full.calls w ++ [Full.SelectComments (tv_id task)])
              (Full.notices w ++ [mkToast "Error" "Failed to fetch comments" true])).
Proof.
  unfold Full.fetchComments.
  destruct (call_refused (Full.SelectComments (tv_id task))
              (Full.select_comments (tv_id task)) w) as (message & _ & ->).
  - intros t uid d. now exists Rel.project_members.
  - reflexivity.
Qed.

(** X21.  Adding a comment.  A draft that trims to nothing sends no
    request and changes nothing.  Any other draft, with a session, sends
    one insert, of a comment on the modal's task by the caller with the
    trimmed draft as its content, and the insert is refused: no comment is
    stored, the draft is kept, the error's message is shown and the
    comments are not read again.  Without a session nothing is sent and
    the failed read of the user's id is shown. *)
Theorem add_comment_outcome (trim : string -> string) (task : TaskView)
    (m : Full.ModalPage.State) (w : Full.W) :
  let r := Full.handleAddComment trim task m w in
  let text := trim (Full.ModalPage.newComment m) in
  (text = "" -> r = (m, w))
  /\ (text <> "" -> Full.caller w = None ->
      r = (m, Full.mkW (Full.tables w) (Full.caller w) (Full.clock w) (Full.calls w)
                       (Full.notices w ++ [mkToast "Error" null_user true])))
  /\ (forall u, text <> "" -> Full.caller w = Some u ->
        exists message,
          refusal (Full.clock w (List.length (Full.calls w))) message
          /\ r = (m,
                  Full.mkW (Full.tables w) (Full.caller w) (Full.clock w)
                           (Full.calls w ++ [Full.InsertComment (tv_id task) u text])
                           (Full.notices w ++ [mkToast "Error" message true]))).
Proof.
  intros r text. subst r. unfold Full.handleAddComment. fold text.
  destruct (String.eqb_spec text "") as [Hempty|Hne].
  { repeat apply conj; [auto | intros H; contradiction | intros u H; contradiction]. }
  repeat apply conj.
  - intros H. contradiction.
  - intros _ Hc. unfold Full.notice_error, Full.notice. rewrite Hc. reflexivity.
  - intros u _ Hc. rewrite Hc.
    destruct (call_refused (Full.InsertComment (tv_id task) u text)
                (Full.insert_comment (tv_id task) u text) w) as (message & Hm & ->).
    + intros t uid d. now exists Rel.project_members.
    + exists message. split; [exact Hm|].
      unfold Full.notice_error, Full.notice. simpl. now rewrite Hc.
Qed.

(** ** Who can be assigned *)

(** X23.  Nobody is offered as an assignee.  [fetchProjectMembers] sends
    its read of the project's members, keeps the modal's list and
    notifies "Failed to fetch project members"; in a modal that starts
    without members, as every modal does, "Add assignee" stays empty
    whatever task it shows. *)
Theorem no_assignee_candidates (projectId : uuid) (task : TaskView)
    (m : Full.ModalPage.State) (w : Full.W) :
  Full.fetchProjectMembers projectId m w
  = (m,
     Full.mkW (Full.tables w) (Full.caller w) (Full.clock w)
              (Full.calls w ++ [Full.SelectMembers projectId])
              (Full.notices w ++ [mkToast "Error" "Failed to fetch project members" true]))
  /\ (Full.ModalPage.projectMembers m = [] ->
      addable_members
        (Full.ModalPage.projectMembers (fst (Full.fetchProjectMembers projectId m w))) task
      = []).
Proof.
  assert (E : Full.fetchProjectMembers projectId m w
              = (m,
                 Full.mkW (Full.tables w) (Full.caller w) (Full.clock w)
                          (Full.calls w ++ [Full.SelectMembers projectId])
                          (Full.notices w
                           ++ [mkToast "Error" "Failed to fetch project members" true]))).
  { unfold Full.fetchProjectMembers.
    destruct (call_refused (Full.SelectMembers projectId) (Full.select_members projectId) w)
      as (message & _ & ->).
    - intros t uid d. now exists Rel.project_members.
    - reflexivity. }
  split; [exact E|]. intros Hm. rewrite E. simpl. now rewrite Hm.
Qed.
